(** * SkillLens: the extraction gateway and the matching and scoring engine

    A shallow embedding of [src/app/api/jobs/route.ts] (the gateway) and of
    the logic of [src/app/page.tsx] (the client engine), followed by the
    properties of the design that hold of them.

    Conventions of the embedding.
    - A JavaScript string is a [string]: a sequence of code units, here the
      code units 0..255 read as Latin-1 code points.  [toLowerCase], [trim]
      and the regular-expression class [\s] are the ECMAScript ones restricted
      to that range.
    - A JavaScript number is a binary64 [float]; lengths and the ranking
      scores, which the code only adds and compares as small integers, are
      [nat] and [Z].
    - The external calls (the text-generation service, the HTTP round trip)
      are inputs of the handlers: what they answer is a parameter. *)

From Stdlib Require Import ZArith Ascii String List Bool Lia.
From Stdlib Require Import Floats.PrimFloat Floats.FloatOps Floats.SpecFloat Floats.FloatAxioms.
From Stdlib Require Import Numbers.Cyclic.Int63.Uint63.
From stdpp Require Import base list sorting gmap sets strings.
Import ListNotations.

Set Warnings "-inexact-float".
Local Open Scope string_scope.

(* ================================================================= *)
(** ** JavaScript strings *)

Module JSString.

(** Code units that [String.prototype.trim] removes and that [\s] matches:
    TAB, LF, VT, FF, CR, SPACE and NO-BREAK SPACE. *)
Definition isWhiteSpace (c : ascii) : bool :=
  match N_of_ascii c with
  | 9 | 10 | 11 | 12 | 13 | 32 | 160 => true
  | _ => false
  end%N.

(** [toLowerCase] on one code unit: A-Z and the Latin-1 capitals
    U+00C0..U+00DE, the multiplication sign U+00D7 excepted. *)
Definition toLowerChar (c : ascii) : ascii :=
  let n := N_of_ascii c in
  if ((65 <=? n) && (n <=? 90)
      || (192 <=? n) && (n <=? 222) && negb (n =? 215))%N
  then ascii_of_N (n + 32) else c.

Fixpoint toLowerCase (s : string) : string :=
  match s with
  | EmptyString => EmptyString
  | String c s' => String (toLowerChar c) (toLowerCase s')
  end.

Fixpoint trimStart (s : string) : string :=
  match s with
  | EmptyString => EmptyString
  | String c s' => if isWhiteSpace c then trimStart s' else s
  end.

(** [trimEnd] keeps a character when it is not white space or when
    something remains after it. *)
Fixpoint trimEnd (s : string) : string :=
  match s with
  | EmptyString => EmptyString
  | String c s' =>
      match trimEnd s' with
      | EmptyString => if isWhiteSpace c then EmptyString else String c EmptyString
      | r => String c r
      end
  end.

Definition trim (s : string) : string := trimEnd (trimStart s).

(** [s.startsWith(pat)]. *)
Fixpoint startsWith (s pat : string) : bool :=
  match pat, s with
  | EmptyString, _ => true
  | String _ _, EmptyString => false
  | String p pat', String c s' => Ascii.eqb p c && startsWith s' pat'
  end.

(** [s.includes(sub)]: [sub] occurs in [s] at some position. *)
Fixpoint includes (s sub : string) : bool :=
  startsWith s sub ||
  match s with
  | EmptyString => false
  | String _ s' => includes s' sub
  end.

(** [s.split(sep)] for a separator of one character.  The result is never
    empty: the empty string splits into one empty segment. *)
Fixpoint split (sep : ascii) (s : string) : list string :=
  match s with
  | EmptyString => [EmptyString]
  | String c s' =>
      if Ascii.eqb c sep then EmptyString :: split sep s'
      else match split sep s' with
           | seg :: segs => String c seg :: segs
           | [] => [String c EmptyString]
           end
  end.

(** The character [c] occurs in [s]. *)
Fixpoint hasChar (c : ascii) (s : string) : bool :=
  match s with
  | EmptyString => false
  | String d s' => Ascii.eqb d c || hasChar c s'
  end.

(** Every character of [s] satisfies [p]. *)
Fixpoint allChars (p : ascii -> bool) (s : string) : bool :=
  match s with
  | EmptyString => true
  | String c s' => p c && allChars p s'
  end.

(** [segs.join(sep)]. *)
Fixpoint join (sep : ascii) (segs : list string) : string :=
  match segs with
  | [] => EmptyString
  | [seg] => seg
  | seg :: segs' => seg ++ String sep (join sep segs')
  end.

(** [s.replace(/[cs]/g, "")] for a class of characters given as a
    predicate: every character of the class is removed. *)
Fixpoint removeAll (cls : ascii -> bool) (s : string) : string :=
  match s with
  | EmptyString => EmptyString
  | String c s' => if cls c then removeAll cls s' else String c (removeAll cls s')
  end.

(** [(s.match(new RegExp(escape(pat), "g")) || []).length]: the matches of
    the literal [pat] in [s], scanned from the left without overlap.  [skip]
    is the number of characters still covered by the last match.  The empty
    pattern matches once at every position, the end included. *)
Fixpoint countMatchesFrom (pat s : string) (skip : nat) : nat :=
  match skip with
  | S k =>
      match s with
      | EmptyString => 0
      | String _ s' => countMatchesFrom pat s' k
      end
  | O =>
      if startsWith s pat then
        S (match s with
           | EmptyString => 0
           | String _ s' => countMatchesFrom pat s' (Nat.pred (String.length pat))
           end)
      else
        match s with
        | EmptyString => 0
        | String _ s' => countMatchesFrom pat s' 0
        end
  end.

Definition countMatches (pat s : string) : nat := countMatchesFrom pat s 0.

(** [arr.includes(x)] on an array of strings. *)
Definition arrayIncludes (arr : list string) (x : string) : bool :=
  existsb (String.eqb x) arr.

(** [Boolean(s)]: a string is truthy when it is not empty. *)
Definition truthy (s : string) : bool :=
  match s with EmptyString => false | _ => true end.

End JSString.

(* ================================================================= *)
(** ** JavaScript numbers *)

Module JSNumber.

Local Open Scope float_scope.

(** The number of an array length (lengths are below 2^32). *)
Definition ofNat (n : nat) : float := of_uint63 (Uint63.of_Z (Z.of_nat n)).

(** The number of an integer of magnitude below 2^63. *)
Definition ofZ (z : Z) : float :=
  if (z <? 0)%Z then - of_uint63 (Uint63.of_Z (- z)) else of_uint63 (Uint63.of_Z z).

(** [Math.round]: the nearest integer, ties towards +Infinity.  Zeros,
    infinities, NaN and numbers without a fractional part are returned as
    they are; otherwise the number is [±m * 2^e] with [e < 0], and the
    result is [floor (x + 1/2)] computed exactly.  A result of zero keeps
    the sign of the argument. *)
Definition Math_round (x : float) : float :=
  match Prim2SF x with
  | S754_finite sg m e =>
      if (0 <=? e)%Z then x
      else
        let d := Z.shiftl 1 (- e) in
        let n := if sg then (- Z.pos m)%Z else Z.pos m in
        let r := ((2 * n + d) / (2 * d))%Z in
        if (r =? 0)%Z then (if sg then neg_zero else zero) else ofZ r
  | _ => x
  end.

(** [Math.min] and [Math.max] of two numbers: NaN if either is NaN, and
    -0 counts as smaller than +0. *)
Definition Math_min (a b : float) : float :=
  if a <? b then a
  else if b <? a then b
  else if a =? b then (if get_sign a then a else b)
  else nan.

Definition Math_max (a b : float) : float :=
  if a <? b then b
  else if b <? a then a
  else if a =? b then (if get_sign a then b else a)
  else nan.

(** The decoded numbers that are not below zero: the two zeros, the
    positive finite numbers and +Infinity. *)
Definition nonnegative (x : spec_float) : Prop :=
  match x with
  | S754_zero _ | S754_finite false _ _ | S754_infinity false => True
  | _ => False
  end.

(** The decoded numbers that are positive and finite. *)
Definition positiveFinite (x : spec_float) : Prop :=
  match x with
  | S754_finite false _ _ => True
  | _ => False
  end.

End JSNumber.


(* ================================================================= *)
(** ** The extraction gateway: [src/app/api/jobs/route.ts] *)

Module Gateway.

Import JSString.

(** One entry of [jobAnalysisStore]. *)
Record JobAnalysis := {
  jobTitle : string;
  description : string;
  requiredSkills : list string;
  missingSkills : list string
}.

(** What the [userSkills] field of the parsed body can be: an array of
    strings, a string (which also has an [includes] method, testing for a
    substring), or a value without that method ([undefined], a number, ...). *)
Inductive UserSkillsField :=
| SkillArray (skills : list string)
| SkillText (text : string)
| SkillAbsent.

(** The destructured body [{ jobDescription, userSkills }]. *)
Record RequestBody := {
  jobDescription : string;
  userSkills : UserSkillsField
}.

(** The external capability: it fails, or it answers with a [text] that
    may be undefined. *)
Inductive ModelReply :=
| ModelFails
| ModelAnswers (text : option string).

Inductive Payload :=
| SkillsPayload (required missing : list string)
| ErrorPayload (error : string).

(** How a call of [POST] ends: the promise rejects with the exception, or
    it resolves to a response with a status and a JSON payload. *)
Inductive Outcome :=
| Rejects
| Responds (status : nat) (payload : Payload).

(** Statements of the handler: they read and extend the store and either
    complete with a value or throw. *)
Inductive Completion (A : Type) :=
| Normal (a : A)
| Throw.
Arguments Normal {A} a.
Arguments Throw {A}.

Definition Stmt (A : Type) : Type :=
  list JobAnalysis -> Completion A * list JobAnalysis.

Definition ret {A} (a : A) : Stmt A := fun store => (Normal a, store).

Definition throw {A} : Stmt A := fun store => (Throw, store).

Definition bind {A B} (m : Stmt A) (k : A -> Stmt B) : Stmt B :=
  fun store =>
    match m store with
    | (Normal a, store') => k a store'
    | (Throw, store') => (Throw, store')
    end.

Notation "'do' x <~ m ;; k" := (bind m (fun x => k))
  (at level 10, x name, m at level 99, k at level 200).
Notation "'run' m ;; k" := (bind m (fun _ => k))
  (at level 10, m at level 99, k at level 200).

(** [try { body } catch (err) { handler }]. *)
Definition tryCatch {A} (body handler : Stmt A) : Stmt A :=
  fun store =>
    match body store with
    | (Normal a, store') => (Normal a, store')
    | (Throw, store') => handler store'
    end.

(** [jobAnalysisStore.push(entry)]. *)
Definition push (entry : JobAnalysis) : Stmt unit :=
  fun store => (Normal tt, (store ++ [entry])%list).

(** [userSkills.includes(skill)]; a [TypeError] when there is no such method. *)
Definition userSkillsIncludes (u : UserSkillsField) (skill : string) : Stmt bool :=
  match u with
  | SkillArray skills => ret (arrayIncludes skills skill)
  | SkillText text => ret (includes text skill)
  | SkillAbsent => throw
  end.

(** [arr.filter(callback)] with a callback that may throw. *)
Fixpoint filterStmt (keep : string -> Stmt bool) (arr : list string) : Stmt (list string) :=
  match arr with
  | [] => ret []
  | x :: arr' =>
      do b <~ keep x ;;
      do rest <~ filterStmt keep arr' ;;
      ret (if b then x :: rest else rest)
  end.

(** [resultText.split(",").map((s) => s.trim()).filter(Boolean)]. *)
Definition extractSkills (resultText : string) : list string :=
  List.filter truthy (List.map trim (split "," resultText)).

(** The template literal of the prompt; [quote] is the double-quote
    character. *)
Definition quote : string := String (ascii_of_nat 34) EmptyString.

Definition prompt (jobDescription : string) : string :=
  "Extract all technical and soft skills from this job description: "
    ++ quote ++ jobDescription ++ quote.

(** The object that a request which succeeds saves in the store. *)
Definition storedEntry (body : RequestBody) (extracted missing : list string)
  : JobAnalysis :=
  {| jobTitle := "Unknown"; description := jobDescription body;
     requiredSkills := extracted; missingSkills := missing |}.

Section Handler.

(** The text-generation service, by the prompt it is given. *)
Variable generateContent : string -> ModelReply.

Definition callModel (jobDescription : string) : Stmt (option string) :=
  match generateContent (prompt jobDescription) with
  | ModelFails => throw
  | ModelAnswers text => ret text
  end.

(** The body of the [try] block. *)
Definition analyzeJob (body : RequestBody) : Stmt Outcome :=
  do text <~ callModel (jobDescription body) ;;
  let resultText := match text with Some t => t | None => EmptyString end in
  let extractedSkills := extractSkills resultText in
  do missing <~ filterStmt
                  (fun skill =>
                     do b <~ userSkillsIncludes (userSkills body) skill ;; ret (negb b))
                  extractedSkills ;;
  let jobAnalysis := {| jobTitle := "Unknown";
                        description := jobDescription body;
                        requiredSkills := extractedSkills;
                        missingSkills := missing |} in
  run push jobAnalysis ;;
  ret (Responds 200 (SkillsPayload (requiredSkills jobAnalysis) (missingSkills jobAnalysis))).

Definition failure : Stmt Outcome :=
  ret (Responds 500 (ErrorPayload "Failed to analyze job")).

(** [const { jobDescription, userSkills } = await req.json()]: the parsed
    body is [None] when the body is not JSON or cannot be destructured,
    and the statement throws. *)
Definition parseBody (req : option RequestBody) : Stmt RequestBody :=
  match req with
  | Some body => ret body
  | None => throw
  end.

(** The statements of [POST]: the body is parsed, then comes the [try]. *)
Definition handler (req : option RequestBody) : Stmt Outcome :=
  do body <~ parseBody req ;;
  tryCatch (analyzeJob body) failure.

(** A call of [POST] on a store: a response, or the rejection if an
    exception leaves the handler, and the store after the call. *)
Definition POST (req : option RequestBody) (store : list JobAnalysis)
  : Outcome * list JobAnalysis :=
  match handler req store with
  | (Normal response, store') => (response, store')
  | (Throw, store') => (Rejects, store')
  end.

End Handler.

End Gateway.

(* ================================================================= *)
(** ** The matching and scoring engine: [src/app/page.tsx] *)

Module Page.

Import JSString JSNumber.

Record AnalysisResult := {
  requiredSkills : list string;
  missingSkills : list string;
  technicalSkills : list string;
  softSkills : list string
}.

(** [str.trim().toLowerCase().replace(/[\.\-\s]/g, "")]. *)
Definition normalize (str : string) : string :=
  removeAll (fun c => Ascii.eqb c "."%char || Ascii.eqb c "-"%char || isWhiteSpace c)
            (toLowerCase (trim str)).

(** The state of the component, one field per [useState]. *)
Record State := {
  jobDescription : string;
  userSkills : string;
  analysis : option AnalysisResult;
  loading : bool;
  error : option string;
  toast : option string
}.

Definition setAnalysis (a : option AnalysisResult) (st : State) : State :=
  {| jobDescription := jobDescription st; userSkills := userSkills st;
     analysis := a; loading := loading st; error := error st; toast := toast st |}.

Definition setLoading (b : bool) (st : State) : State :=
  {| jobDescription := jobDescription st; userSkills := userSkills st;
     analysis := analysis st; loading := b; error := error st; toast := toast st |}.

Definition setError (e : option string) (st : State) : State :=
  {| jobDescription := jobDescription st; userSkills := userSkills st;
     analysis := analysis st; loading := loading st; error := e; toast := toast st |}.

(** How [await axios.post("/api/jobs", ...)] ends: it throws (no answer, or
    a status outside 2xx), or [res.data] lacks one of the two arrays, or it
    carries both. *)
Inductive ApiReply :=
| RequestFails
| UnexpectedData
| SkillData (required missing : list string).

(** The body that [handleAnalyze] posts. *)
Definition requestBody (st : State) : Gateway.RequestBody :=
  {| Gateway.jobDescription := jobDescription st;
     Gateway.userSkills :=
       Gateway.SkillArray
         (List.filter truthy (List.map trim (split "," (userSkills st)))) |}.

(** One test of [userSkillsArray.some(...)] for the skill. *)
Definition isMatched (userSkillsArray : list string) (skill : string) : bool :=
  let normSkill := normalize skill in
  existsb (fun userSkill => includes userSkill normSkill || includes normSkill userSkill)
          userSkillsArray.

(** The first [forEach]: every skill is pushed on [matchedSkills] or on
    [missingSkills].  The pair is (matchedSkills, missingSkills). *)
Definition matchSkills (userSkillsArray required : list string)
  : list string * list string :=
  fold_left
    (fun '(matchedSkills, missingSkills) skill =>
       if isMatched userSkillsArray skill
       then (matchedSkills ++ [skill], missingSkills)
       else (matchedSkills, missingSkills ++ [skill]))%list
    required ([], []).

Definition technicalKeywords : list string :=
  [ "html"; "css"; "javascript"; "typescript"; "react"; "angular"; "vue"; "svelte";
    "node"; "express"; "api"; "sql"; "postgres"; "mysql"; "mongodb"; "redis";
    "docker"; "kubernetes"; "aws"; "gcp"; "azure"; "git"; "webpack"; "vite";
    "next"; "nestjs" ].

Definition isTechnical (skill : string) : bool :=
  let lower := toLowerCase skill in
  existsb (fun kw => includes lower kw) technicalKeywords.

(** The second [forEach].  The pair is (technicalSkills, softSkills). *)
Definition classifySkills (required : list string) : list string * list string :=
  fold_left
    (fun '(technicalSkills, softSkills) skill =>
       if isTechnical skill
       then (technicalSkills ++ [skill], softSkills)
       else (technicalSkills, softSkills ++ [skill]))%list
    required ([], []).

(** The analysis that is stored when the reply has both arrays; the
    [missingSkills] of the reply is not used. *)
Definition analyze (userSkills : string) (required : list string) : AnalysisResult :=
  let userSkillsArray := List.map normalize (split "," userSkills) in
  let '(_, missing) := matchSkills userSkillsArray required in
  let '(technical, soft) := classifySkills required in
  {| requiredSkills := required;
     missingSkills := missing;
     technicalSkills := technical;
     softSkills := soft |}.

Section Handler.

(** The HTTP round trip to the gateway, by the body that is posted. *)
Variable post : Gateway.RequestBody -> ApiReply.

(** [handleAnalyze], from the click to the last [setLoading(false)]. *)
Definition handleAnalyze (st : State) : State :=
  if negb (truthy (jobDescription st)) || negb (truthy (userSkills st)) then
    setError (Some "Please fill in both fields before analyzing.") st
  else
    let st := setError None st in
    let st := setLoading true st in
    let st := setAnalysis None st in
    let st :=
      match post (requestBody st) with
      | SkillData required _ =>
          setAnalysis (Some (analyze (userSkills st) required)) st
      | UnexpectedData =>
          setError (Some "API returned an unexpected data format.") st
      | RequestFails =>
          setError (Some "Analysis failed. Check server console/network tab.") st
      end in
    setLoading false st.

End Handler.

(** *** The other events of the page *)

Definition setJobDescription (s : string) (st : State) : State :=
  {| jobDescription := s; userSkills := userSkills st;
     analysis := analysis st; loading := loading st; error := error st; toast := toast st |}.

Definition setUserSkills (s : string) (st : State) : State :=
  {| jobDescription := jobDescription st; userSkills := s;
     analysis := analysis st; loading := loading st; error := error st; toast := toast st |}.

Definition setToast (t : option string) (st : State) : State :=
  {| jobDescription := jobDescription st; userSkills := userSkills st;
     analysis := analysis st; loading := loading st; error := error st; toast := t |}.

(** The state after the first render. *)
Definition initialState : State :=
  {| jobDescription := EmptyString; userSkills := EmptyString;
     analysis := None; loading := false; error := None; toast := None |}.

Definition handleReset (st : State) : State :=
  let st := setJobDescription EmptyString st in
  let st := setUserSkills EmptyString st in
  let st := setAnalysis None st in
  let st := setError None st in
  setToast (Some "Reset done") st.

(** What can happen to the page: typing in one of the two fields, a click
    on Analyze (with the way the round trip will end), a click on Reset,
    and a toast that is shown or that times out. *)
Inductive Event :=
| TypeJobDescription (s : string)
| TypeUserSkills (s : string)
| ClickAnalyze (post : Gateway.RequestBody -> ApiReply)
| ClickReset
| Toast (t : option string).

Definition step (st : State) (ev : Event) : State :=
  match ev with
  | TypeJobDescription s => setJobDescription s st
  | TypeUserSkills s => setUserSkills s st
  | ClickAnalyze post => handleAnalyze post st
  | ClickReset => handleReset st
  | Toast t => setToast t st
  end.

Inductive reachable : State -> Prop :=
| reachable_initial : reachable initialState
| reachable_step st ev : reachable st -> reachable (step st ev).

(** A session: both fields are typed in, Analyze is clicked, and the
    gateway answers with three required skills. *)
Definition exampleRequired : list string := ["React"; "SQL"; "Communication"].

Definition exampleSession : list Event :=
  [ TypeJobDescription "We need React and SQL";
    TypeUserSkills "react, Python";
    ClickAnalyze (fun _ => SkillData exampleRequired []) ].

Definition exampleState : State := fold_left step exampleSession initialState.

(** *** The computed values ([useMemo]) *)

Definition matchedSkills (analysis : option AnalysisResult) : list string :=
  match analysis with
  | None => []
  | Some a =>
      List.filter (fun skill => negb (arrayIncludes (missingSkills a) skill))
                  (requiredSkills a)
  end.

Local Open Scope float_scope.

Definition matchPercentage (analysis : option AnalysisResult) : float :=
  match analysis with
  | None => 0
  | Some a =>
      if Nat.eqb (length (requiredSkills a)) 0 then 0
      else Math_round
             (ofNat (length (matchedSkills analysis)) / ofNat (length (requiredSkills a)) * 100)
  end.

Definition technicalMatchPercentage (analysis : option AnalysisResult) : float :=
  match analysis with
  | None => 0
  | Some a =>
      if Nat.eqb (length (technicalSkills a)) 0 then 0
      else
        let matchedTech :=
          length (List.filter (fun s => arrayIncludes (technicalSkills a) s)
                              (matchedSkills analysis)) in
        Math_round (ofNat matchedTech / ofNat (length (technicalSkills a)) * 100)
  end.

Definition softMatchPercentage (analysis : option AnalysisResult) : float :=
  match analysis with
  | None => 0
  | Some a =>
      if Nat.eqb (length (softSkills a)) 0 then 0
      else
        let matchedSoft :=
          length (List.filter (fun s => arrayIncludes (softSkills a) s)
                              (matchedSkills analysis)) in
        Math_round (ofNat matchedSoft / ofNat (length (softSkills a)) * 100)
  end.

(** The weighted sum inside [readinessScore]. *)
Definition weightedScore (matchPct technicalPct softPct : float) : float :=
  matchPct * 0.6 + technicalPct * 0.3 + softPct * 0.1.

(** The last two lines of [readinessScore], for given percentages. *)
Definition readinessOf (matchPct technicalPct softPct : float) : float :=
  let score := Math_round (weightedScore matchPct technicalPct softPct) in
  Math_max 0 (Math_min 100 score).

Definition readinessScore (analysis : option AnalysisResult) : float :=
  match analysis with
  | None => 0
  | Some _ =>
      readinessOf (matchPercentage analysis)
                  (technicalMatchPercentage analysis)
                  (softMatchPercentage analysis)
  end.

Local Close Scope float_scope.

Definition readinessTip (analysis : option AnalysisResult) : string :=
  match analysis with
  | None => EmptyString
  | Some _ =>
      let r := readinessScore analysis in
      if (80 <=? r)%float then
        "Great match! Focus on polishing soft skills and system design to stand out."
      else if (60 <=? r)%float then
        "You're in a good place — prioritize framework depth and APIs, then pick a couple of missing tools."
      else if (40 <=? r)%float then
        "You have the basics. Focus on core frameworks, REST/GraphQL, and one database."
      else
        "Large gaps detected. Start with fundamentals (HTML/CSS/JS) and a single stack (e.g., React + Node)."
  end.

(** *** The ranking of the missing skills *)

Record Ranked := { skill : string; score : Z }.

Definition importanceWords : list string :=
  [ "must"; "required"; "need"; "essential"; "strong"; "experience";
    "proficiency"; "proven" ].

(** The body of [analysis.missingSkills.forEach] up to the [push]: the
    score of one skill. *)
Definition skillScore (jobDescription skill : string) : Z :=
  let lowerJD := toLowerCase jobDescription in
  let skillLower := toLowerCase skill in
  let score :=
    fold_left
      (fun score word =>
         if includes lowerJD (word ++ " " ++ skillLower)
            || includes lowerJD (word ++ " with " ++ skillLower)
         then (score + 5)%Z else score)
      importanceWords 0%Z in
  let occurrences := countMatches skillLower lowerJD in
  (score + Z.of_nat occurrences * 2)%Z.

(** [Array.prototype.sort] with a comparator: the sort is stable, and [a]
    stays before [b] unless [cmp a b] is positive.  [insertSorted] puts an
    element that stood before all of [sorted] at its place. *)
Fixpoint insertSorted {A} (cmp : A -> A -> Z) (a : A) (sorted : list A) : list A :=
  match sorted with
  | [] => [a]
  | b :: rest =>
      if (cmp a b <=? 0)%Z then a :: b :: rest
      else b :: insertSorted cmp a rest
  end.

Fixpoint sort {A} (cmp : A -> A -> Z) (arr : list A) : list A :=
  match arr with
  | [] => []
  | a :: arr' => insertSorted cmp a (sort cmp arr')
  end.

(** [(a, b) => b.score - a.score]. *)
Definition byScoreDescending (a b : Ranked) : Z := (score b - score a)%Z.

Definition rankSkills (jobDescription : string) (missing : list string) : list Ranked :=
  fold_left
    (fun ranked skill =>
       ranked ++ [ {| skill := skill; score := skillScore jobDescription skill |} ])%list
    missing [].

Definition topSuggested (analysis : option AnalysisResult) (jobDescription : string)
  : list string :=
  match analysis with
  | None => []
  | Some a =>
      let ranked := sort byScoreDescending (rankSkills jobDescription (missingSkills a)) in
      let top := List.map skill (firstn 5 ranked) in
      if (length top <? 5)%nat then
        let remaining :=
          firstn (5 - length top)
                 (List.filter (fun s => negb (arrayIncludes top s)) (missingSkills a)) in
        (top ++ remaining)%list
      else top
  end.

(** *** The roadmap

    The texts of the page are constants; a character outside ASCII, such
    as the dash of the roadmap lines, is written as its bytes. *)

Definition someIncludes (skills : list string) (keywords : list string) : bool :=
  existsb (fun s => existsb (fun kw => includes s kw) keywords) skills.

Definition learningRoadmap (analysis : option AnalysisResult) : list string :=
  match analysis with
  | None => []
  | Some a =>
      let lowerMissing := List.map toLowerCase (missingSkills a) in
      let hasHTMLorCSSorJS :=
        someIncludes lowerMissing ["html"; "css"; "javascript"; "typescript"] in
      let hasFramework :=
        someIncludes lowerMissing ["react"; "angular"; "vue"; "next"; "svelte"] in
      let hasBackend :=
        someIncludes lowerMissing ["node"; "express"; "api"; "sql"; "mongodb"] in
      let hasTools := someIncludes lowerMissing ["git"; "docker"; "aws"; "azure"] in
      let hasSoft :=
        existsb (fun s => includes (toLowerCase s) "communication"
                          || includes (toLowerCase s) "team"
                          || includes (toLowerCase s) "collaboration")
                (missingSkills a) in
      let roadmap : list string := [] in
      let roadmap := if hasHTMLorCSSorJS then
        roadmap ++ ["1. Core fundamentals — HTML, CSS, and JavaScript (build small projects)."]
        else roadmap in
      let roadmap := if hasFramework then
        roadmap ++ ["2. Learn a modern framework — React/Next.js and state management (Redux/Zustand)."]
        else roadmap in
      let roadmap := if hasBackend then
        roadmap ++ ["3. Backend basics — Build RESTful APIs with Node/Express and practice with a database."]
        else roadmap in
      let roadmap := if hasTools then
        roadmap ++ ["4. Developer tools — Git, Docker, and basic cloud deployment."]
        else roadmap in
      let roadmap := if hasSoft then
        roadmap ++ ["5. Soft skills — communication, teamwork, documenting your work (README/comments)."]
        else roadmap in
      if Nat.eqb (length roadmap) 0 then
        ["1. Start with core JS + one framework, 2. Build CRUD app + DB, 3. Learn Git & deployment."]
      else roadmap
  end%list.

(** The five lines that [learningRoadmap] can push, in the order of the
    pushes, and the line it falls back on. *)
Definition roadmapLines : list string :=
  [ "1. Core fundamentals — HTML, CSS, and JavaScript (build small projects).";
    "2. Learn a modern framework — React/Next.js and state management (Redux/Zustand).";
    "3. Backend basics — Build RESTful APIs with Node/Express and practice with a database.";
    "4. Developer tools — Git, Docker, and basic cloud deployment.";
    "5. Soft skills — communication, teamwork, documenting your work (README/comments)." ].

Definition roadmapFallback : string :=
  "1. Start with core JS + one framework, 2. Build CRUD app + DB, 3. Learn Git & deployment.".

(** The class of characters that [normalize] removes: [/[\.\-\s]/]. *)
Definition isSkipped (c : ascii) : bool :=
  Ascii.eqb c "."%char || Ascii.eqb c "-"%char || isWhiteSpace c.

(** Everything the dashboard shows of a state. *)
Record Dashboard := {
  shownAnalysis : option AnalysisResult;
  shownMatched : list string;
  shownMatchPercentage : float;
  shownTechnicalMatchPercentage : float;
  shownSoftMatchPercentage : float;
  shownReadinessScore : float;
  shownReadinessTip : string;
  shownTopSuggested : list string;
  shownRoadmap : list string
}.

Definition dashboard (st : State) : Dashboard :=
  {| shownAnalysis := analysis st;
     shownMatched := matchedSkills (analysis st);
     shownMatchPercentage := matchPercentage (analysis st);
     shownTechnicalMatchPercentage := technicalMatchPercentage (analysis st);
     shownSoftMatchPercentage := softMatchPercentage (analysis st);
     shownReadinessScore := readinessScore (analysis st);
     shownReadinessTip := readinessTip (analysis st);
     shownTopSuggested := topSuggested (analysis st) (jobDescription st);
     shownRoadmap := learningRoadmap (analysis st) |}.

End Page.


(* ================================================================= *)
(** ** The page in front of the gateway *)

Module Wiring.

(** [axios.post("/api/jobs", body)] answered by the route: the posted body
    is JSON, so the route parses it; axios resolves with the payload of a
    response of status 2xx and throws for any other status, the status 500
    of a handler that threw included. *)
Definition throughGateway (generateContent : string -> Gateway.ModelReply)
    (store : list Gateway.JobAnalysis) (body : Gateway.RequestBody) : Page.ApiReply :=
  match fst (Gateway.POST generateContent (Some body) store) with
  | Gateway.Responds 200 (Gateway.SkillsPayload required missing) =>
      Page.SkillData required missing
  | Gateway.Responds 200 (Gateway.ErrorPayload _) => Page.UnexpectedData
  | _ => Page.RequestFails
  end.

End Wiring.

(* ================================================================= *)
(** ** The ranking as the design document words it *)

Module Design.

Import JSString.

(** "5 points per occurrence of an importance phrase (a fixed word
    immediately followed by the skill, optionally with [with] in between)
    found in the lowercased job description, plus 2 points per raw
    occurrence of the skill text in the lowercased description." *)
Definition phraseOccurrences (lowerJD skillLower : string) : nat :=
  list_sum
    (List.map
       (fun word =>
          countMatches (word ++ " " ++ skillLower) lowerJD
          + countMatches (word ++ " with " ++ skillLower) lowerJD)
       Page.importanceWords).

Definition skillScore (jobDescription skill : string) : Z :=
  let lowerJD := toLowerCase jobDescription in
  let skillLower := toLowerCase skill in
  (5 * Z.of_nat (phraseOccurrences lowerJD skillLower)
   + 2 * Z.of_nat (countMatches skillLower lowerJD))%Z.

(** "Sort descending by score; take top 5; if fewer than 5 score above
    zero, pad with remaining missing skills in original order until 5 or
    exhausted", for a given way of scoring a skill. *)
Definition topMissing (scoreOf : string -> Z) (missing : list string) : list string :=
  let ranked :=
    Page.sort (fun a b => (scoreOf b - scoreOf a)%Z)
              (List.filter (fun s => (0 <? scoreOf s)%Z) missing) in
  let top := firstn 5 ranked in
  let remaining :=
    firstn (5 - length top)
           (List.filter (fun s => negb (arrayIncludes top s)) missing) in
  (top ++ remaining)%list.

End Design.

(* ================================================================= *)
(** * Properties *)

Local Open Scope list_scope.

(** ** Strings *)

Section StringFacts.

Import JSString.

Lemma startsWith_empty (s : string) : startsWith s EmptyString = true.
Proof. destruct s; reflexivity. Qed.

Lemma includes_empty (s : string) : includes s EmptyString = true.
Proof. destruct s; reflexivity. Qed.

Lemma split_not_nil (sep : ascii) (s : string) : split sep s <> [].
Proof.
  induction s as [|c s IH]; simpl; [discriminate|].
  destruct (Ascii.eqb c sep); [discriminate|].
  destruct (split sep s); discriminate.
Qed.

(** Joining the segments with the separator gives the string back. *)
Lemma join_split (sep : ascii) (s : string) : join sep (split sep s) = s.
Proof.
  induction s as [|c s IH]; [reflexivity|].
  simpl. destruct (Ascii.eqb_spec c sep) as [->|Hne].
  - pose proof (split_not_nil sep s) as Hnil.
    simpl. destruct (split sep s) as [|seg segs]; [contradiction|].
    simpl in *. now rewrite IH.
  - pose proof (split_not_nil sep s) as Hnil.
    destruct (split sep s) as [|seg segs]; [contradiction|].
    destruct segs as [|seg' segs]; simpl in *; now rewrite <- IH.
Qed.

(** No segment contains the separator. *)
Lemma split_no_separator (sep : ascii) (s : string) :
  Forall (fun seg => hasChar sep seg = false) (split sep s).
Proof.
  induction s as [|c s IH]; simpl.
  - repeat constructor.
  - destruct (Ascii.eqb c sep) eqn:E.
    + constructor; [reflexivity | exact IH].
    + destruct (split sep s) as [|seg segs].
      * repeat constructor. simpl. now rewrite E.
      * inversion IH; subst. constructor; [|assumption].
        simpl. rewrite E. assumption.
Qed.

Lemma arrayIncludes_elem_of (arr : list string) (x : string) :
  arrayIncludes arr x = true <-> x ∈ arr.
Proof.
  unfold arrayIncludes. rewrite existsb_exists, list_elem_of_In. split.
  - intros (y & Hy & E). apply String.eqb_eq in E. now subst.
  - intros H. exists x. split; [assumption | apply String.eqb_refl].
Qed.

Lemma arrayIncludes_false (arr : list string) (x : string) :
  arrayIncludes arr x = false <-> x ∉ arr.
Proof.
  rewrite <- arrayIncludes_elem_of. destruct (arrayIncludes arr x); split; congruence.
Qed.

End StringFacts.

(** ** Arrays filled by [forEach] and [push] *)

Section ArrayFacts.

Context {A : Type}.

(** A loop that pushes every element on one of two arrays computes the
    two complementary filters. *)
Lemma fold_left_push_partition (p : A -> bool) (l acc1 acc2 : list A) :
  fold_left
    (fun '(yes, no) x => if p x then (yes ++ [x], no) else (yes, no ++ [x]))
    l (acc1, acc2)
  = (acc1 ++ List.filter p l, acc2 ++ List.filter (fun x => negb (p x)) l).
Proof.
  revert acc1 acc2. induction l as [|x l IH]; intros acc1 acc2; simpl.
  - now rewrite !app_nil_r.
  - destruct (p x); simpl; rewrite IH, <- app_assoc; reflexivity.
Qed.

(** A loop that pushes one value per element computes [map]. *)
Lemma fold_left_push_map {B} (f : A -> B) (l : list A) (acc : list B) :
  fold_left (fun out x => out ++ [f x]) l acc = acc ++ List.map f l.
Proof.
  revert acc. induction l as [|x l IH]; intros acc; simpl.
  - now rewrite app_nil_r.
  - rewrite IH, <- app_assoc. reflexivity.
Qed.

Lemma filter_sublist (p : A -> bool) (l : list A) : sublist (List.filter p l) l.
Proof.
  induction l as [|x l IH]; simpl; [constructor|].
  destruct (p x); now constructor.
Qed.

Lemma filter_complement_perm (p : A -> bool) (l : list A) :
  List.filter p l ++ List.filter (fun x => negb (p x)) l ≡ₚ l.
Proof.
  induction l as [|x l IH]; simpl; [reflexivity|].
  destruct (p x); simpl.
  - now rewrite IH.
  - rewrite <- Permutation_middle. now rewrite IH.
Qed.

Lemma elem_of_filter_bool (p : A -> bool) (l : list A) (x : A) :
  x ∈ List.filter p l <-> x ∈ l /\ p x = true.
Proof. rewrite !list_elem_of_In. apply filter_In. Qed.

End ArrayFacts.

(** ** The analysis of one reply *)

Section AnalysisFacts.

Import JSString Page.

Lemma matchSkills_filter (userSkillsArray required : list string) :
  matchSkills userSkillsArray required
  = (List.filter (isMatched userSkillsArray) required,
     List.filter (fun s => negb (isMatched userSkillsArray s)) required).
Proof. unfold matchSkills. now rewrite fold_left_push_partition. Qed.

Lemma classifySkills_filter (required : list string) :
  classifySkills required
  = (List.filter isTechnical required,
     List.filter (fun s => negb (isTechnical s)) required).
Proof. unfold classifySkills. now rewrite fold_left_push_partition. Qed.

Lemma analyze_fields (userSkills : string) (required : list string) :
  analyze userSkills required
  = {| requiredSkills := required;
       missingSkills :=
         List.filter
           (fun s => negb (isMatched (List.map normalize (split "," userSkills)) s))
           required;
       technicalSkills := List.filter isTechnical required;
       softSkills := List.filter (fun s => negb (isTechnical s)) required |}.
Proof. unfold analyze. now rewrite matchSkills_filter, classifySkills_filter. Qed.

(** What a click on Analyze leaves when both fields are filled in. *)
Lemma handleAnalyze_filled post (st : State) :
  truthy (jobDescription st) = true ->
  truthy (userSkills st) = true ->
  handleAnalyze post st
  = {| jobDescription := jobDescription st;
       userSkills := userSkills st;
       analysis :=
         match post (requestBody st) with
         | SkillData required _ => Some (analyze (userSkills st) required)
         | _ => None
         end;
       loading := false;
       error :=
         match post (requestBody st) with
         | SkillData _ _ => None
         | UnexpectedData => Some "API returned an unexpected data format."
         | RequestFails => Some "Analysis failed. Check server console/network tab."
         end;
       toast := toast st |}.
Proof.
  intros Hjd Hus. unfold handleAnalyze. rewrite Hjd, Hus. simpl.
  change (requestBody _) with (requestBody st).
  destruct (post (requestBody st)); reflexivity.
Qed.

(** What a click on Analyze leaves when a field is empty. *)
Lemma handleAnalyze_blank post (st : State) :
  truthy (jobDescription st) = false \/ truthy (userSkills st) = false ->
  handleAnalyze post st
  = setError (Some "Please fill in both fields before analyzing.") st.
Proof.
  intros H. unfold handleAnalyze.
  destruct H as [-> | ->]; [reflexivity | now rewrite orb_true_r].
Qed.

(** Every analysis that a state holds was computed by [analyze]. *)
Lemma reachable_analysis (st : State) (a : AnalysisResult) :
  reachable st -> analysis st = Some a ->
  exists userSkills required, a = analyze userSkills required.
Proof.
  intros Hreach. revert a. induction Hreach as [|st ev Hreach IH]; intros a Ha.
  - discriminate.
  - destruct ev as [s|s|post| |t]; simpl in Ha; try (now apply IH); try discriminate.
    destruct (truthy (jobDescription st)) eqn:Hjd;
      [destruct (truthy (userSkills st)) eqn:Hus|].
    + rewrite handleAnalyze_filled in Ha by assumption. simpl in Ha.
      destruct (post (requestBody st)); try discriminate.
      injection Ha as <-. eauto.
    + rewrite handleAnalyze_blank in Ha by now right. now apply IH.
    + rewrite handleAnalyze_blank in Ha by now left. now apply IH.
Qed.

(** Every state at the end of a session is reachable. *)
Lemma session_reachable (events : list Event) (st : State) :
  reachable st -> reachable (fold_left step events st).
Proof.
  revert st. induction events as [|ev events IH]; intros st H; simpl; [exact H|].
  apply IH. now constructor.
Defined.

Lemma exampleState_reachable : reachable exampleState.
Proof. apply session_reachable. constructor. Defined.

End AnalysisFacts.

(** ** The properties of the design: matching and classification *)

Section EngineProperties.

Import JSString JSNumber Page.

(** C1.  For requiredSkills = ["React","SQL","Communication"] and the
    user-skills text "react, Python", the engine marks "React" matched and
    "SQL" and "Communication" missing, classifies "React" and "SQL" as
    technical and "Communication" as soft, and computes matchPercentage 33,
    technicalMatchPercentage 50, softMatchPercentage 0 and readiness 35. *)
Theorem example_react_sql_communication :
  let required := ["React"; "SQL"; "Communication"] in
  let a := analyze "react, Python" required in
  fst (matchSkills (List.map normalize (split "," "react, Python")) required) = ["React"]
  /\ matchedSkills (Some a) = ["React"]
  /\ missingSkills a = ["SQL"; "Communication"]
  /\ technicalSkills a = ["React"; "SQL"]
  /\ softSkills a = ["Communication"]
  /\ matchPercentage (Some a) = 33%float
  /\ technicalMatchPercentage (Some a) = 50%float
  /\ softMatchPercentage (Some a) = 0%float
  /\ weightedScore 33 50 0 = 34.8%float
  /\ readinessScore (Some a) = 35%float
  /\ analysis exampleState = Some a.
Proof. vm_compute. repeat split. Qed.

Lemma isMatched_empty_segment (userSkillsArray : list string) (skill : string) :
  EmptyString ∈ userSkillsArray -> isMatched userSkillsArray skill = true.
Proof.
  intros Hin. unfold isMatched. apply existsb_exists.
  exists EmptyString. split; [now apply list_elem_of_In|].
  now rewrite includes_empty, orb_true_r.
Qed.

Lemma filter_none {A} (p : A -> bool) (l : list A) :
  (forall x, p x = false) -> List.filter p l = [].
Proof. intros H. induction l as [|x l IH]; simpl; [|rewrite H]; auto. Qed.

Lemma filter_none_in {A} (p : A -> bool) (l : list A) :
  (forall x, x ∈ l -> p x = false) -> List.filter p l = [].
Proof.
  intros H. induction l as [|x l IH]; simpl; [reflexivity|].
  rewrite H by constructor. apply IH. intros y Hy. apply H. now constructor.
Qed.

Lemma filter_all {A} (p : A -> bool) (l : list A) :
  (forall x, p x = true) -> List.filter p l = l.
Proof. intros H. induction l as [|x l IH]; simpl; [|rewrite H, IH]; auto. Qed.

(** C9.  If the user-skills text has an empty comma-separated segment,
    the fuzzy re-match classifies every required skill as matched: the
    segment normalizes to the empty string, which every normalized skill
    includes. *)
Theorem empty_segment_matches_everything (userSkills : string) (required : list string) :
  EmptyString ∈ split "," userSkills ->
  let userSkillsArray := List.map normalize (split "," userSkills) in
  let a := analyze userSkills required in
  normalize EmptyString = EmptyString
  /\ (forall skill, includes (normalize skill) EmptyString = true)
  /\ matchSkills userSkillsArray required = (required, [])
  /\ missingSkills a = []
  /\ matchedSkills (Some a) = required.
Proof.
  intros Hin userSkillsArray a.
  assert (Hall : forall skill, isMatched userSkillsArray skill = true).
  { intros skill. apply isMatched_empty_segment.
    change EmptyString with (normalize EmptyString).
    apply list_elem_of_In, in_map, list_elem_of_In, Hin. }
  split; [reflexivity|]. split; [intros; apply includes_empty|].
  assert (Hmiss : List.filter (fun s => negb (isMatched userSkillsArray s)) required = []).
  { apply filter_none. intros x. now rewrite Hall. }
  split.
  { rewrite matchSkills_filter, Hmiss. f_equal. now apply filter_all. }
  subst a. rewrite analyze_fields. simpl. fold userSkillsArray. rewrite Hmiss.
  split; [reflexivity|]. now apply filter_all.
Qed.

Lemma empty_segment_matches_everything_witness :
  EmptyString ∈ split "," "python," /\
  matchedSkills (Some (analyze "python," ["React"; "SQL"])) = ["React"; "SQL"].
Proof.
  assert (H : EmptyString ∈ split "," "python,").
  { apply list_elem_of_In. simpl. auto. }
  split; [exact H|].
  exact (proj2 (proj2 (proj2 (proj2
    (empty_segment_matches_everything "python," ["React"; "SQL"] H))))).
Defined.

Lemma matchedSkills_difference (a : AnalysisResult) :
  matchedSkills (Some a) = list_difference (requiredSkills a) (missingSkills a).
Proof.
  simpl. induction (requiredSkills a) as [|x l IH]; simpl; [reflexivity|].
  destruct (decide_rel elem_of x (missingSkills a)) as [Hin|Hout].
  - apply arrayIncludes_elem_of in Hin. now rewrite Hin.
  - apply arrayIncludes_false in Hout. rewrite Hout. simpl. now rewrite IH.
Qed.

(** C4.  In every analysis the page holds, the matched skills and the
    missing skills are disjoint sets whose union is the set of required
    skills, and matchedSkills = requiredSkills - missingSkills; this holds
    for every list of required skills, the non-empty ones included. *)
Theorem matched_missing_cover_required (st : State) (a : AnalysisResult) :
  reachable st ->
  analysis st = Some a ->
  let matched : gset string := list_to_set (matchedSkills (Some a)) in
  let missing : gset string := list_to_set (missingSkills a) in
  matched ∪ missing = list_to_set (requiredSkills a)
  /\ matched ## missing
  /\ matchedSkills (Some a) = list_difference (requiredSkills a) (missingSkills a).
Proof.
  intros Hreach Ha matched missing.
  destruct (reachable_analysis st a Hreach Ha) as (us & required & ->).
  subst matched missing. rewrite matchedSkills_difference.
  rewrite analyze_fields. simpl.
  set (p := fun s => negb (isMatched (List.map normalize (split "," us)) s)).
  split; [|split; [|reflexivity]].
  - apply set_eq. intros x.
    rewrite elem_of_union, !elem_of_list_to_set, list_elem_of_difference,
      !elem_of_filter_bool.
    destruct (p x) eqn:E; intuition congruence.
  - apply elem_of_disjoint. intros x.
    rewrite !elem_of_list_to_set, list_elem_of_difference. tauto.
Qed.

Lemma matched_missing_cover_required_witness :
  let a := analyze "react, Python" exampleRequired in
  reachable exampleState
  /\ analysis exampleState = Some a
  /\ (list_to_set (matchedSkills (Some a)) : gset string) ∪ list_to_set (missingSkills a)
     = list_to_set (requiredSkills a).
Proof.
  intros a.
  assert (Hreach : reachable exampleState) by apply exampleState_reachable.
  assert (Ha : analysis exampleState = Some a) by reflexivity.
  split; [exact Hreach|]. split; [exact Ha|].
  exact (proj1 (matched_missing_cover_required exampleState a Hreach Ha)).
Defined.

(** C5.  In every analysis the page holds, technicalSkills and softSkills
    partition requiredSkills: together they are requiredSkills up to
    order, with nothing duplicated or dropped; no skill is in both; and
    each list keeps the order of requiredSkills. *)
Theorem technical_soft_partition (st : State) (a : AnalysisResult) :
  reachable st ->
  analysis st = Some a ->
  technicalSkills a ++ softSkills a ≡ₚ requiredSkills a
  /\ length (technicalSkills a) + length (softSkills a) = length (requiredSkills a)
  /\ (forall s, s ∈ requiredSkills a <-> s ∈ technicalSkills a \/ s ∈ softSkills a)
  /\ (forall s, s ∈ technicalSkills a -> s ∉ softSkills a)
  /\ sublist (technicalSkills a) (requiredSkills a)
  /\ sublist (softSkills a) (requiredSkills a)
  /\ technicalSkills a = List.filter isTechnical (requiredSkills a)
  /\ softSkills a = List.filter (fun s => negb (isTechnical s)) (requiredSkills a).
Proof.
  intros Hreach Ha.
  destruct (reachable_analysis st a Hreach Ha) as (us & required & ->).
  rewrite analyze_fields. simpl.
  pose proof (filter_complement_perm isTechnical required) as Hperm.
  split; [exact Hperm|]. split.
  { rewrite <- length_app. now rewrite Hperm. }
  split.
  { intros s. rewrite <- Hperm at 1. apply elem_of_app. }
  split.
  { intros s. rewrite !elem_of_filter_bool. intros [_ Ht] [_ Hs].
    rewrite Ht in Hs. discriminate. }
  repeat split; apply filter_sublist.
Qed.

Lemma technical_soft_partition_witness :
  let a := analyze "react, Python" exampleRequired in
  reachable exampleState
  /\ analysis exampleState = Some a
  /\ technicalSkills a ++ softSkills a ≡ₚ requiredSkills a.
Proof.
  intros a.
  assert (Hreach : reachable exampleState) by apply exampleState_reachable.
  assert (Ha : analysis exampleState = Some a) by reflexivity.
  split; [exact Hreach|]. split; [exact Ha|].
  exact (proj1 (technical_soft_partition exampleState a Hreach Ha)).
Defined.

End EngineProperties.

(** ** The properties of the design: failures and determinism *)

Section HandlerProperties.

Import JSString JSNumber Page.

(** C3, as the design words it, fails: a request that fails after an
    earlier success does not leave the earlier analysis in place. *)
Lemma failure_after_success_discards_analysis :
  let failing := fun _ : Gateway.RequestBody => RequestFails in
  reachable exampleState
  /\ analysis exampleState = Some (analyze "react, Python" exampleRequired)
  /\ failing (requestBody exampleState) = RequestFails
  /\ analysis (handleAnalyze failing exampleState) = None
  /\ analysis (handleAnalyze failing exampleState) <> analysis exampleState.
Proof.
  intros failing. split; [apply exampleState_reachable|].
  repeat split; discriminate.
Qed.

(** C3, amended.  When a request is made (both fields are filled in) and
    it fails, because the round trip throws or because the reply lacks one
    of the two arrays, the analysis is null afterwards, whatever it was
    before: the handler clears it before it sends the request.  Loading is
    over and an error message is set. *)
Theorem failed_request_clears_analysis post (st : State) :
  truthy (jobDescription st) = true ->
  truthy (userSkills st) = true ->
  (forall required missing, post (requestBody st) <> SkillData required missing) ->
  analysis (handleAnalyze post st) = None
  /\ loading (handleAnalyze post st) = false
  /\ (exists message, error (handleAnalyze post st) = Some message)
  /\ jobDescription (handleAnalyze post st) = jobDescription st
  /\ userSkills (handleAnalyze post st) = userSkills st.
Proof.
  intros Hjd Hus Hfail. rewrite handleAnalyze_filled by assumption. simpl.
  destruct (post (requestBody st)) as [| |required missing].
  - repeat split; eauto.
  - repeat split; eauto.
  - now destruct (Hfail required missing).
Qed.

Lemma failed_request_clears_analysis_witness :
  let failing := fun _ : Gateway.RequestBody => RequestFails in
  truthy (jobDescription exampleState) = true
  /\ truthy (userSkills exampleState) = true
  /\ analysis exampleState <> None
  /\ analysis (handleAnalyze failing exampleState) = None.
Proof.
  intros failing.
  assert (Hjd : truthy (jobDescription exampleState) = true) by reflexivity.
  assert (Hus : truthy (userSkills exampleState) = true) by reflexivity.
  assert (Hfail : forall required missing,
             failing (requestBody exampleState) <> SkillData required missing)
    by (intros; discriminate).
  split; [exact Hjd|]. split; [exact Hus|]. split; [discriminate|].
  exact (proj1 (failed_request_clears_analysis failing exampleState Hjd Hus Hfail)).
Defined.

(** C8.  The engine is deterministic: two runs on the same job
    description, the same user-skills text and the same required skills
    show the same dashboard (analysis, matched skills, percentages,
    readiness score and tip, top missing skills, roadmap), whatever the
    two states held before and whatever else the two replies carried. *)
Theorem engine_deterministic post1 post2 (st1 st2 : State)
    (required missing1 missing2 : list string) :
  jobDescription st1 = jobDescription st2 ->
  userSkills st1 = userSkills st2 ->
  truthy (jobDescription st1) = true ->
  truthy (userSkills st1) = true ->
  post1 (requestBody st1) = SkillData required missing1 ->
  post2 (requestBody st2) = SkillData required missing2 ->
  dashboard (handleAnalyze post1 st1) = dashboard (handleAnalyze post2 st2)
  /\ analysis (handleAnalyze post1 st1) = Some (analyze (userSkills st1) required).
Proof.
  intros Hjd Hus Tjd Tus H1 H2.
  rewrite (handleAnalyze_filled post1 st1) by assumption.
  rewrite (handleAnalyze_filled post2 st2) by (rewrite <- ?Hjd, <- ?Hus; assumption).
  rewrite H1, H2. unfold dashboard. simpl. rewrite Hjd, Hus. split; reflexivity.
Qed.

Lemma engine_deterministic_witness :
  let reply1 := fun _ : Gateway.RequestBody => SkillData exampleRequired [] in
  let reply2 := fun _ : Gateway.RequestBody => SkillData exampleRequired ["SQL"] in
  let fresh := setUserSkills "react, Python"
                 (setJobDescription "We need React and SQL" initialState) in
  dashboard (handleAnalyze reply1 fresh) = dashboard (handleAnalyze reply2 exampleState).
Proof.
  intros reply1 reply2 fresh.
  exact (proj1 (engine_deterministic reply1 reply2 fresh exampleState
                  exampleRequired [] ["SQL"]
                  eq_refl eq_refl eq_refl eq_refl eq_refl eq_refl)).
Defined.

End HandlerProperties.

(** ** The ranking of the missing skills *)

Section RankingProperties.

Import JSString Page.

Section Sorting.

Context {A : Type} (f : A -> Z).

(** The comparator of the ranking, for a score [f]. *)
Local Abbreviation cmp := (fun a b : A => (f b - f a)%Z).

Lemma insertSorted_perm (x : A) (l : list A) : insertSorted cmp x l ≡ₚ x :: l.
Proof.
  induction l as [|b l IH]; simpl; [reflexivity|].
  destruct (f b - f x <=? 0)%Z; [reflexivity|].
  rewrite IH. apply perm_swap.
Qed.

Lemma sort_perm (l : list A) : sort cmp l ≡ₚ l.
Proof.
  induction l as [|x l IH]; simpl; [reflexivity|].
  now rewrite insertSorted_perm, IH.
Qed.

Lemma insertSorted_descending (x : A) (l : list A) :
  Sorted (fun a b => (f b <= f a)%Z) l ->
  Sorted (fun a b => (f b <= f a)%Z) (insertSorted cmp x l).
Proof.
  induction 1 as [|b l Hs IH Hhd]; simpl.
  - repeat constructor.
  - destruct (Z.leb_spec (f b - f x) 0) as [Hle|Hgt].
    + constructor; [now constructor|]. constructor. lia.
    + constructor; [exact IH|].
      destruct Hhd as [|c l' Hbc]; simpl.
      * constructor. lia.
      * destruct (f c - f x <=? 0)%Z; constructor; [lia | exact Hbc].
Qed.

(** The sorted array is in descending order of score. *)
Lemma sort_descending (l : list A) :
  Sorted (fun a b => (f b <= f a)%Z) (sort cmp l).
Proof.
  induction l as [|x l IH]; simpl; [constructor|].
  now apply insertSorted_descending.
Qed.

(** An element with a positive score never passes an element of score 0. *)
Lemma insertSorted_before_zeros (x : A) (pos zeros : list A) :
  (0 < f x)%Z ->
  Forall (fun z => f z = 0%Z) zeros ->
  insertSorted cmp x (pos ++ zeros) = insertSorted cmp x pos ++ zeros.
Proof.
  intros Hx Hz. induction pos as [|b pos IH]; simpl.
  - destruct Hz as [|z zeros Hfz Hz]; simpl; [reflexivity|].
    destruct (Z.leb_spec (f z - f x) 0); [reflexivity | lia].
  - destruct (f b - f x <=? 0)%Z; [reflexivity|]. now rewrite IH.
Qed.

(** An element of score 0 passes the positive scores and stops before the
    elements of score 0, which stood after it. *)
Lemma insertSorted_zero (x : A) (pos zeros : list A) :
  f x = 0%Z ->
  Forall (fun p => (0 < f p)%Z) pos ->
  Forall (fun z => f z = 0%Z) zeros ->
  insertSorted cmp x (pos ++ zeros) = pos ++ x :: zeros.
Proof.
  intros Hx Hp Hz. induction Hp as [|b pos Hb Hp IH]; simpl.
  - destruct Hz as [|z zeros Hfz Hz]; simpl; [reflexivity|].
    destruct (Z.leb_spec (f z - f x) 0); [reflexivity | lia].
  - destruct (Z.leb_spec (f b - f x) 0); [lia|]. now rewrite IH.
Qed.

Hypothesis f_nonneg : forall a, (0 <= f a)%Z.

(** The stable sort puts the positive scores first, in descending order,
    and leaves the elements of score 0 behind them in their order. *)
Lemma sort_positive_then_zeros (l : list A) :
  sort cmp l
  = sort cmp (List.filter (fun a => (0 <? f a)%Z) l)
    ++ List.filter (fun a => negb (0 <? f a)%Z) l.
Proof.
  induction l as [|x l IH]; simpl; [reflexivity|].
  assert (Hpos : Forall (fun p => (0 < f p)%Z)
                   (sort cmp (List.filter (fun a => (0 <? f a)%Z) l))).
  { rewrite sort_perm. apply Forall_forall. intros p Hp.
    apply elem_of_filter_bool in Hp. now apply Z.ltb_lt. }
  assert (Hzero : Forall (fun z => f z = 0%Z)
                    (List.filter (fun a => negb (0 <? f a)%Z) l)).
  { apply Forall_forall. intros z Hin. apply elem_of_filter_bool in Hin.
    destruct Hin as [_ Hin]. apply negb_true_iff, Z.ltb_ge in Hin.
    specialize (f_nonneg z). lia. }
  rewrite IH. destruct (Z.ltb_spec 0 (f x)) as [Hx|Hx]; simpl.
  - now apply insertSorted_before_zeros.
  - apply insertSorted_zero; [specialize (f_nonneg x); lia | assumption..].
Qed.

End Sorting.

(** Sorting the ranked records is sorting the skills by their score. *)
Lemma sort_ranked (scoreOf : string -> Z) (missing : list string) :
  sort byScoreDescending
       (List.map (fun s => {| skill := s; score := scoreOf s |}) missing)
  = List.map (fun s => {| skill := s; score := scoreOf s |})
             (sort (fun a b => (scoreOf b - scoreOf a)%Z) missing).
Proof.
  induction missing as [|x l IH]; simpl; [reflexivity|].
  rewrite IH. clear IH.
  induction (sort (fun a b => (scoreOf b - scoreOf a)%Z) l) as [|b s IHs];
    simpl; [reflexivity|].
  unfold byScoreDescending at 1. simpl.
  destruct (scoreOf b - scoreOf x <=? 0)%Z; simpl; [reflexivity|].
  now rewrite IHs.
Qed.

(** The first five of the sorted skills are the first five positive
    scores followed by as many skills of score 0, in their order, as fit. *)
Lemma firstn_sort_padding (scoreOf : string -> Z) (missing : list string) :
  (forall s, (0 <= scoreOf s)%Z) ->
  firstn 5 (sort (fun a b => (scoreOf b - scoreOf a)%Z) missing)
  = Design.topMissing scoreOf missing.
Proof.
  intros Hnonneg. unfold Design.topMissing.
  rewrite (sort_positive_then_zeros scoreOf Hnonneg missing).
  set (ranked := sort _ (List.filter _ missing)).
  rewrite firstn_app. f_equal.
  destruct (Nat.le_gt_cases 5 (length ranked)) as [Hlong|Hshort].
  - rewrite length_firstn, Nat.min_l by assumption.
    assert (E : 5 - length ranked = 0) by lia.
    now rewrite E, Nat.sub_diag.
  - assert (Hall : firstn 5 ranked = ranked) by (apply firstn_all2; lia).
    rewrite !Hall. f_equal.
    apply filter_ext_in. intros s Hin%list_elem_of_In. f_equal.
    destruct (Z.ltb_spec 0 (scoreOf s)) as [Hs|Hs].
    + symmetry. apply arrayIncludes_elem_of. subst ranked. rewrite sort_perm.
      apply elem_of_filter_bool. split; [exact Hin | now apply Z.ltb_lt].
    + symmetry. apply arrayIncludes_false. subst ranked. rewrite sort_perm.
      rewrite elem_of_filter_bool. intros [_ Hpos]. apply Z.ltb_lt in Hpos. lia.
Qed.

Lemma importance_fold (p : string -> bool) (words : list string) (start : Z) :
  fold_left (fun score word => if p word then (score + 5)%Z else score) words start
  = (start + 5 * Z.of_nat (length (List.filter p words)))%Z.
Proof.
  revert start. induction words as [|w words IH]; intros start; simpl; [lia|].
  rewrite IH. destruct (p w); simpl length; lia.
Qed.

(** The score counts each importance word once, however often its phrase
    occurs, and each match of the skill text twice. *)
Lemma skillScore_formula (jobDescription skill : string) :
  let lowerJD := toLowerCase jobDescription in
  let skillLower := toLowerCase skill in
  skillScore jobDescription skill
  = (5 * Z.of_nat
           (length
              (List.filter
                 (fun word =>
                    includes lowerJD (word +:+ " " +:+ skillLower)
                    || includes lowerJD (word +:+ " with " +:+ skillLower))
                 importanceWords))
     + 2 * Z.of_nat (countMatches skillLower lowerJD))%Z.
Proof. unfold skillScore. cbv zeta. rewrite importance_fold. lia. Qed.

Lemma skillScore_nonneg (jobDescription skill : string) :
  (0 <= skillScore jobDescription skill)%Z.
Proof. rewrite skillScore_formula. cbv zeta. lia. Qed.

(** The padding branch of [topSuggested] never adds anything: the result
    is the first five of the sorted skills. *)
Lemma topSuggested_firstn (a : AnalysisResult) (jobDescription : string) :
  topSuggested (Some a) jobDescription
  = firstn 5 (sort (fun x y => (skillScore jobDescription y - skillScore jobDescription x)%Z)
                   (missingSkills a)).
Proof.
  unfold topSuggested, rankSkills.
  rewrite (fold_left_push_map
             (fun s => {| skill := s; score := skillScore jobDescription s |})).
  simpl app. rewrite sort_ranked, <- firstn_map, map_map. simpl. rewrite map_id.
  set (sorted := sort _ (missingSkills a)).
  destruct (Nat.ltb_spec (length (firstn 5 sorted)) 5) as [Hshort|Hlong];
    [|reflexivity].
  rewrite length_firstn in Hshort.
  assert (Hall : firstn 5 sorted = sorted) by (apply firstn_all2; lia).
  rewrite Hall.
  assert (Hnone : List.filter (fun s => negb (arrayIncludes sorted s)) (missingSkills a) = []).
  { apply filter_none_in. intros s Hin. apply negb_false_iff.
    apply arrayIncludes_elem_of. subst sorted. now rewrite sort_perm. }
  now rewrite Hnone, firstn_nil, app_nil_r.
Qed.

(** C2, as the design words it, fails: the score does not count the
    occurrences of an importance phrase, it counts the importance words
    that have one.  Where "must aa" occurs three times the code gives "aa"
    5 + 2*3 = 11 points and the design 5*3 + 2*3 = 21, so that "bb" (12
    points) is ranked first by the code and second by the design.  Where
    both "must sql" and "must with sql" occur the code gives 5 + 2*2 = 9
    points and the design 5*2 + 2*2 = 14. *)
Lemma ranking_counts_words_not_occurrences :
  let jobDescription := "must aa must aa must aa bb bb bb bb bb bb" in
  let a := analyze "python" ["aa"; "bb"] in
  missingSkills a = ["aa"; "bb"]
  /\ skillScore jobDescription "aa" = 11%Z
  /\ Design.skillScore jobDescription "aa" = 21%Z
  /\ skillScore jobDescription "bb" = 12%Z
  /\ Design.skillScore jobDescription "bb" = 12%Z
  /\ topSuggested (Some a) jobDescription = ["bb"; "aa"]
  /\ Design.topMissing (Design.skillScore jobDescription) (missingSkills a) = ["aa"; "bb"]
  /\ topSuggested (Some a) jobDescription
     <> Design.topMissing (Design.skillScore jobDescription) (missingSkills a)
  /\ skillScore "Must SQL, must with SQL" "SQL" = 9%Z
  /\ Design.skillScore "Must SQL, must with SQL" "SQL" = 14%Z.
Proof. vm_compute. repeat split. discriminate. Qed.

(** C2, amended.  A missing skill scores 5 points for each importance
    word (must, required, need, essential, strong, experience,
    proficiency, proven) whose phrase, the word followed by the skill with
    optionally "with" in between, occurs at least once in the lowercased
    job description, plus 2 points per match of the skill text there.  The
    skills are sorted by descending score and the first five are taken;
    this is the list of the first five skills of positive score followed,
    when there are fewer than five, by the other missing skills in their
    original order until there are five or none is left. *)
Theorem top_missing_ranking (a : AnalysisResult) (jobDescription : string) :
  let scoreOf := skillScore jobDescription in
  let lowerJD := toLowerCase jobDescription in
  let sorted := sort (fun x y => (scoreOf y - scoreOf x)%Z) (missingSkills a) in
  (forall skill,
      scoreOf skill
      = (5 * Z.of_nat
               (length
                  (List.filter
                     (fun word =>
                        includes lowerJD (word +:+ " " +:+ toLowerCase skill)
                        || includes lowerJD (word +:+ " with " +:+ toLowerCase skill))
                     importanceWords))
         + 2 * Z.of_nat (countMatches (toLowerCase skill) lowerJD))%Z)
  /\ sorted ≡ₚ missingSkills a
  /\ Sorted (fun x y => (scoreOf y <= scoreOf x)%Z) sorted
  /\ topSuggested (Some a) jobDescription = firstn 5 sorted
  /\ topSuggested (Some a) jobDescription = Design.topMissing scoreOf (missingSkills a).
Proof.
  intros scoreOf lowerJD sorted.
  split; [intros skill; apply skillScore_formula|].
  split; [apply sort_perm|].
  split; [apply sort_descending|].
  split; [apply topSuggested_firstn|].
  rewrite topSuggested_firstn. apply firstn_sort_padding.
  intros s. apply skillScore_nonneg.
Qed.

End RankingProperties.

(** ** Trimming *)

Section TrimFacts.

Import JSString.

Lemma trimEnd_idempotent (s : string) : trimEnd (trimEnd s) = trimEnd s.
Proof.
  induction s as [|c s IH]; simpl; [reflexivity|].
  destruct (trimEnd s) as [|d r] eqn:E.
  - destruct (isWhiteSpace c) eqn:W; simpl; [reflexivity | now rewrite W].
  - change (trimEnd (String c (String d r)))
      with (match trimEnd (String d r) with
            | EmptyString =>
                if isWhiteSpace c then EmptyString else String c EmptyString
            | r' => String c r'
            end).
    now rewrite IH.
Qed.

Lemma trimStart_head (s : string) :
  match trimStart s with
  | EmptyString => True
  | String c _ => isWhiteSpace c = false
  end.
Proof.
  induction s as [|c s IH]; simpl; [exact I|].
  destruct (isWhiteSpace c) eqn:W; [exact IH | exact W].
Qed.

Lemma trimEnd_head (c : ascii) (s : string) :
  isWhiteSpace c = false -> exists r, trimEnd (String c s) = String c r.
Proof.
  intros W. simpl. destruct (trimEnd s); [rewrite W|]; eauto.
Qed.

(** A trimmed string is not changed by [trim]. *)
Lemma trim_idempotent (s : string) : trim (trim s) = trim s.
Proof.
  unfold trim. pose proof (trimStart_head s) as H.
  destruct (trimStart s) as [|c t]; [reflexivity|].
  destruct (trimEnd_head c t H) as [r Hr]. rewrite Hr.
  simpl trimStart. rewrite H, <- Hr. apply trimEnd_idempotent.
Qed.

Lemma hasChar_trimStart (c : ascii) (s : string) :
  hasChar c s = false -> hasChar c (trimStart s) = false.
Proof.
  induction s as [|d s IH]; simpl; [reflexivity|].
  intros H. apply orb_false_iff in H as [Hd Hs].
  destruct (isWhiteSpace d); [now apply IH | simpl; now rewrite Hd, Hs].
Qed.

Lemma hasChar_trimEnd (c : ascii) (s : string) :
  hasChar c s = false -> hasChar c (trimEnd s) = false.
Proof.
  induction s as [|d s IH]; simpl; [reflexivity|].
  intros H. apply orb_false_iff in H as [Hd Hs]. specialize (IH Hs).
  destruct (trimEnd s) as [|e r].
  - destruct (isWhiteSpace d); simpl; [reflexivity | now rewrite Hd].
  - simpl in *. now rewrite Hd, IH.
Qed.

Lemma hasChar_trim (c : ascii) (s : string) :
  hasChar c s = false -> hasChar c (trim s) = false.
Proof. intros H. now apply hasChar_trimEnd, hasChar_trimStart. Qed.

End TrimFacts.

(** ** The gateway *)

Section GatewayProperties.

Import JSString Gateway.

Variable generateContent : string -> ModelReply.

(** A callback that never throws filters as [List.filter] does and leaves
    the store alone. *)
Lemma filterStmt_pure (keepStmt : string -> Stmt bool) (keep : string -> bool)
    (arr : list string) (store : list JobAnalysis) :
  (forall x st, keepStmt x st = (Normal (keep x), st)) ->
  filterStmt keepStmt arr store = (Normal (List.filter keep arr), store).
Proof.
  intros Hkeep. induction arr as [|x arr IH]; simpl; [reflexivity|].
  unfold bind at 1. rewrite Hkeep. unfold bind at 1. rewrite IH.
  destruct (keep x); reflexivity.
Qed.

(** A callback that always throws makes the filter throw at the first
    element, if there is one. *)
Lemma filterStmt_throws (keepStmt : string -> Stmt bool)
    (arr : list string) (store : list JobAnalysis) :
  (forall x st, keepStmt x st = (Throw, st)) ->
  filterStmt keepStmt arr store
  = match arr with
    | [] => (Normal [], store)
    | _ :: _ => (Throw, store)
    end.
Proof.
  intros Hkeep. destruct arr as [|x arr]; simpl; [reflexivity|].
  unfold bind at 1. now rewrite Hkeep.
Qed.

(** How the [try] block ends, case by case. *)
Lemma analyzeJob_cases (body : RequestBody) (store : list JobAnalysis) :
  analyzeJob generateContent body store
  = match generateContent (prompt (jobDescription body)) with
    | ModelFails => (Throw, store)
    | ModelAnswers text =>
        let extracted :=
          extractSkills (match text with Some t => t | None => EmptyString end) in
        let succeed missing :=
          (Normal (Responds 200 (SkillsPayload extracted missing)),
           store ++ [storedEntry body extracted missing]) in
        match userSkills body with
        | SkillArray skills =>
            succeed (List.filter (fun s => negb (arrayIncludes skills s)) extracted)
        | SkillText t =>
            succeed (List.filter (fun s => negb (includes t s)) extracted)
        | SkillAbsent =>
            match extracted with
            | [] => succeed []
            | _ :: _ => (Throw, store)
            end
        end
    end.
Proof.
  unfold analyzeJob, callModel. unfold bind at 1.
  destruct (generateContent (prompt (jobDescription body))) as [|text];
    [reflexivity|].
  simpl. set (extracted := extractSkills _).
  unfold bind at 1. destruct (userSkills body) as [skills|t|].
  - rewrite (filterStmt_pure _ (fun s => negb (arrayIncludes skills s)));
      reflexivity.
  - rewrite (filterStmt_pure _ (fun s => negb (includes t s))); reflexivity.
  - rewrite filterStmt_throws by reflexivity.
    destruct extracted; reflexivity.
Qed.

Lemma extractSkills_entries (resultText : string) :
  Forall (fun s => s <> EmptyString /\ hasChar "," s = false /\ trim s = s)
         (extractSkills resultText).
Proof.
  unfold extractSkills. apply Forall_forall. intros s Hin.
  apply elem_of_filter_bool in Hin as [Hin Hs].
  apply list_elem_of_In, in_map_iff in Hin as (seg & <- & Hseg).
  split; [intros E; rewrite E in Hs; discriminate|].
  split; [|apply trim_idempotent].
  apply hasChar_trim.
  pose proof (split_no_separator "," resultText) as Hall.
  rewrite Forall_forall in Hall. now apply Hall, list_elem_of_In.
Qed.

(** C7.  When the model answers and userSkills is an array, the gateway
    splits the answer (the empty string when there is none) on commas,
    trims every segment and drops the empty ones; it returns that list as
    requiredSkills, with, as missingSkills, its entries, in order, that
    are not equal to an element of userSkills.  Every entry is non-empty,
    trimmed and free of commas. *)
Theorem gateway_extracts_and_filters (body : RequestBody) (store : list JobAnalysis)
    (text : option string) (skills : list string) :
  generateContent (prompt (jobDescription body)) = ModelAnswers text ->
  userSkills body = SkillArray skills ->
  let resultText := match text with Some t => t | None => EmptyString end in
  let extractedSkills := List.filter truthy (List.map trim (split "," resultText)) in
  let missing := List.filter (fun s => negb (arrayIncludes skills s)) extractedSkills in
  POST generateContent (Some body) store
  = (Responds 200 (SkillsPayload extractedSkills missing),
     store ++ [storedEntry body extractedSkills missing])
  /\ sublist missing extractedSkills
  /\ (forall s, s ∈ missing <-> s ∈ extractedSkills /\ s ∉ skills)
  /\ Forall (fun s => s <> EmptyString /\ hasChar "," s = false /\ trim s = s)
            extractedSkills.
Proof.
  intros Hmodel Hskills resultText extractedSkills missing.
  split.
  { unfold POST, handler, parseBody, bind, ret, tryCatch.
    rewrite analyzeJob_cases, Hmodel, Hskills. reflexivity. }
  split; [apply filter_sublist|].
  split; [|apply extractSkills_entries].
  intros s. subst missing. rewrite elem_of_filter_bool, negb_true_iff.
  now rewrite arrayIncludes_false.
Qed.

End GatewayProperties.

Lemma gateway_extracts_and_filters_witness :
  let model := fun _ : string => Gateway.ModelAnswers (Some " React , SQL,,Team work ,") in
  let body := {| Gateway.jobDescription := "We need React and SQL";
                 Gateway.userSkills := Gateway.SkillArray ["React"; "sql"] |} in
  model (Gateway.prompt (Gateway.jobDescription body))
  = Gateway.ModelAnswers (Some " React , SQL,,Team work ,")
  /\ Gateway.userSkills body = Gateway.SkillArray ["React"; "sql"]
  /\ fst (Gateway.POST model (Some body) [])
     = Gateway.Responds 200
         (Gateway.SkillsPayload ["React"; "SQL"; "Team work"] ["SQL"; "Team work"]).
Proof.
  intros model body. split; [reflexivity|]. split; [reflexivity|].
  exact (f_equal fst
           (proj1 (gateway_extracts_and_filters model body []
                     (Some " React , SQL,,Team work ,") ["React"; "sql"]
                     eq_refl eq_refl))).
Defined.

Section GatewayFailures.

Import JSString Gateway.

Variable generateContent : string -> ModelReply.

(** C10.  The body is parsed before the [try] block: when parsing or
    destructuring throws, the exception leaves [POST] and no response is
    made.  Once the body is parsed no exception leaves [POST]: the request
    is answered with status 500 and the payload
    [{error: "Failed to analyze job"}] exactly when the [try] block throws,
    and then the store is what it was; otherwise it is answered with the
    two lists and one entry is appended to the store. *)
Theorem gateway_failure_paths (store : list JobAnalysis) :
  POST generateContent None store = (Rejects, store)
  /\ forall body : RequestBody,
       fst (POST generateContent (Some body) store) <> Rejects
       /\ (fst (analyzeJob generateContent body store) = Throw <->
           fst (POST generateContent (Some body) store)
           = Responds 500 (ErrorPayload "Failed to analyze job"))
       /\ (fst (analyzeJob generateContent body store) = Throw ->
           snd (POST generateContent (Some body) store) = store)
       /\ (fst (analyzeJob generateContent body store) <> Throw ->
           exists required missing,
             POST generateContent (Some body) store
             = (Responds 200 (SkillsPayload required missing),
                store ++ [storedEntry body required missing])).
Proof.
  split; [reflexivity|]. intros body.
  unfold POST, handler, parseBody, bind, ret, tryCatch. rewrite analyzeJob_cases.
  destruct (generateContent (prompt (jobDescription body))) as [|text]; simpl.
  - repeat split; try discriminate; try reflexivity. intros H. now destruct H.
  - set (extracted := extractSkills _).
    destruct (userSkills body) as [skills|t|]; simpl.
    + repeat split; try discriminate. eauto.
    + repeat split; try discriminate. eauto.
    + destruct extracted as [|x extracted]; simpl.
      * repeat split; try discriminate. eauto.
      * repeat split; try discriminate; try reflexivity. intros H. now destruct H.
Qed.

(** The [try] block throws when the model fails, and when userSkills has
    no [includes] method while the model names at least one skill. *)
Lemma analyzeJob_throws (body : RequestBody) (store : list JobAnalysis) :
  fst (analyzeJob generateContent body store) = Throw <->
  generateContent (prompt (jobDescription body)) = ModelFails
  \/ exists text,
       generateContent (prompt (jobDescription body)) = ModelAnswers text
       /\ userSkills body = SkillAbsent
       /\ extractSkills (match text with Some t => t | None => EmptyString end) <> [].
Proof.
  rewrite analyzeJob_cases.
  destruct (generateContent (prompt (jobDescription body))) as [|text]; simpl.
  - split; auto.
  - destruct (userSkills body) as [skills|t|]; simpl.
    + split; [discriminate|]. intros [H|(t' & _ & H & _)]; discriminate.
    + split; [discriminate|]. intros [H|(t' & _ & H & _)]; discriminate.
    + destruct (extractSkills _) as [|x l] eqn:E; simpl.
      * split; [discriminate|]. intros [H|(t' & Ht & _ & H)]; [discriminate|].
        injection Ht as <-. now rewrite E in H.
      * split; [|reflexivity]. intros _. right. exists text. rewrite E. auto.
Qed.

End GatewayFailures.

Lemma gateway_failure_paths_witness :
  let failing := fun _ : string => Gateway.ModelFails in
  let body := {| Gateway.jobDescription := "We need React and SQL";
                 Gateway.userSkills := Gateway.SkillArray ["React"] |} in
  let entry := Gateway.storedEntry body ["SQL"] ["SQL"] in
  Gateway.POST failing None [entry] = (Gateway.Rejects, [entry])
  /\ Gateway.POST failing (Some body) [entry]
     = (Gateway.Responds 500 (Gateway.ErrorPayload "Failed to analyze job"), [entry]).
Proof.
  intros failing body entry.
  pose proof (gateway_failure_paths failing [entry]) as [Hparse Hbody].
  split; [exact Hparse|].
  destruct (Hbody body) as (_ & Hthrow & Hstore & _).
  apply injective_projections; simpl.
  - apply Hthrow. reflexivity.
  - apply Hstore. reflexivity.
Defined.

(** ** Rounding a positive integer to binary64 *)

Section RoundingFacts.













End RoundingFacts.

(** ** Numbers *)

Section NumberFacts.

Import JSNumber.

Local Open Scope float_scope.

Lemma SFcompare_antisym (x y : spec_float) :
  SFcompare y x = option_map CompOpp (SFcompare x y).
Proof.
  destruct x as [sx|sx| |sx mx ex], y as [sy|sy| |sy my ey]; simpl;
    try reflexivity;
    try (destruct sx; reflexivity); try (destruct sy; reflexivity);
    try (destruct sx, sy; reflexivity).
  destruct sx, sy; simpl; try reflexivity;
    rewrite (Z.compare_antisym ex ey);
    destruct (ex ?= ey)%Z; simpl; try reflexivity;
    rewrite (Pos.compare_cont_antisym mx my Eq); reflexivity.
Qed.

Lemma SFcompare_None (x y : spec_float) :
  SFcompare x y = None -> x = S754_nan \/ y = S754_nan.
Proof.
  destruct x as [sx|sx| |sx mx ex], y as [sy|sy| |sy my ey]; simpl;
    auto; discriminate.
Qed.

Lemma is_nan_Prim2SF (x : float) :
  Prim2SF x = S754_nan -> is_nan x = true.
Proof.
  intros H. unfold is_nan. now rewrite FloatAxioms.eqb_spec, H.
Qed.

(** [Math.min] returns one of its arguments, below the other one, unless
    one of them is NaN. *)
Lemma Math_min_cases (a b : float) :
  (Math_min a b = a /\ (a <=? b) = true)
  \/ (Math_min a b = b /\ (b <=? a) = true)
  \/ (Math_min a b = nan /\ (Prim2SF a = S754_nan \/ Prim2SF b = S754_nan)).
Proof.
  unfold Math_min. rewrite !FloatAxioms.ltb_spec, !FloatAxioms.leb_spec, FloatAxioms.eqb_spec.
  unfold SFltb, SFleb, SFeqb.
  rewrite (SFcompare_antisym (Prim2SF a) (Prim2SF b)).
  destruct (SFcompare (Prim2SF a) (Prim2SF b)) as [[| |]|] eqn:E; simpl; auto.
  - destruct (get_sign a); auto.
  - right. right. split; [reflexivity|]. now apply SFcompare_None.
Qed.

Lemma Math_max_cases (a b : float) :
  (Math_max a b = a /\ (b <=? a) = true)
  \/ (Math_max a b = b /\ (a <=? b) = true)
  \/ (Math_max a b = nan /\ (Prim2SF a = S754_nan \/ Prim2SF b = S754_nan)).
Proof.
  unfold Math_max. rewrite !FloatAxioms.ltb_spec, !FloatAxioms.leb_spec, FloatAxioms.eqb_spec.
  unfold SFltb, SFleb, SFeqb.
  rewrite (SFcompare_antisym (Prim2SF a) (Prim2SF b)).
  destruct (SFcompare (Prim2SF a) (Prim2SF b)) as [[| |]|] eqn:E; simpl; auto.
  - destruct (get_sign a); auto.
  - right. right. split; [reflexivity|]. now apply SFcompare_None.
Qed.

(** *** Rounding to binary64 never makes a NaN *)

Lemma shr_1_nonneg (mrs : shr_record) :
  (0 <= shr_m mrs)%Z -> (0 <= shr_m (shr_1 mrs))%Z.
Proof.
  destruct mrs as [m r s]. simpl.
  destruct m as [|p|p]; [|destruct p|destruct p]; simpl; lia.
Qed.

Lemma iter_pos_invariant {A} (P : A -> Prop) (f : A -> A) :
  (forall x, P x -> P (f x)) ->
  forall n x, P x -> P (SpecFloat.iter_pos f n x).
Proof.
  intros Hf. induction n as [n IH|n IH|]; intros x Hx; simpl; auto.
Qed.

Lemma shr_fexp_nonneg (prec emax m e : Z) (l : location) :
  (0 <= m)%Z -> (0 <= shr_m (fst (shr_fexp prec emax m e l)))%Z.
Proof.
  intros Hm. unfold shr_fexp, shr.
  assert (H0 : (0 <= shr_m (shr_record_of_loc m l))%Z)
    by (destruct l as [|[| |]]; exact Hm).
  destruct (fexp prec emax (Zdigits2 m + e) - e)%Z; simpl; try exact H0.
  apply (iter_pos_invariant (fun mrs => (0 <= shr_m mrs)%Z));
    [apply shr_1_nonneg | exact H0].
Qed.

Lemma round_nearest_even_nonneg (m : Z) (l : location) :
  (0 <= m)%Z -> (0 <= round_nearest_even m l)%Z.
Proof.
  intros Hm. destruct l as [|[| |]]; simpl; try lia.
  destruct (Z.even m); lia.
Qed.

(** The result of a rounding has the sign that was asked for. *)
Lemma binary_round_aux_sign (prec emax : Z) (sx : bool) (mx ex : Z) (lx : location) :
  (0 <= mx)%Z ->
  match binary_round_aux prec emax sx mx ex lx with
  | S754_zero s | S754_infinity s | S754_finite s _ _ => s = sx
  | S754_nan => False
  end.
Proof.
  intros Hm. unfold binary_round_aux.
  pose proof (shr_fexp_nonneg prec emax mx ex lx Hm) as H1.
  destruct (shr_fexp prec emax mx ex lx) as [mrs' e']. simpl in H1.
  pose proof (shr_fexp_nonneg prec emax _ e' loc_Exact
                (round_nearest_even_nonneg _ (loc_of_shr_record mrs') H1)) as H2.
  destruct (shr_fexp prec emax _ e' loc_Exact) as [mrs'' e'']. simpl in H2.
  destruct (shr_m mrs'') as [|p|p]; [reflexivity| |lia].
  destruct (e'' <=? emax - prec)%Z; reflexivity.
Qed.

Lemma binary_normalize_not_nan (prec emax m e : Z) (szero : bool) :
  binary_normalize prec emax m e szero <> S754_nan.
Proof.
  unfold binary_normalize, binary_round.
  destruct m as [|p|p]; [discriminate| |];
    destruct (shl_align _ _ _) as [mz ez];
    match goal with
    | |- binary_round_aux ?pr ?em ?s (Z.pos ?mz) ?ez ?l <> _ =>
        pose proof (binary_round_aux_sign pr em s (Z.pos mz) ez l ltac:(lia)) as H;
        destruct (binary_round_aux pr em s (Z.pos mz) ez l);
        [discriminate | discriminate | contradiction | discriminate]
    end.
Qed.

Lemma ofZ_not_nan (z : Z) : Prim2SF (ofZ z) <> S754_nan.
Proof.
  unfold ofZ. destruct (z <? 0)%Z.
  - rewrite FloatAxioms.opp_spec, FloatAxioms.of_uint63_spec.
    pose proof (binary_normalize_not_nan prec emax (Uint63.to_Z (Uint63.of_Z (- z))) 0 false).
    destruct (binary_normalize _ _ _ _ _); simpl; congruence.
  - rewrite FloatAxioms.of_uint63_spec. apply binary_normalize_not_nan.
Qed.

(** [Math.round] gives NaN only for NaN. *)
Lemma Math_round_nan (x : float) :
  Prim2SF (Math_round x) = S754_nan -> Prim2SF x = S754_nan.
Proof.
  unfold Math_round. destruct (Prim2SF x) as [s|s| |s m e] eqn:E; try congruence.
  destruct (0 <=? e)%Z; [congruence|]. cbv zeta.
  destruct (_ =? 0)%Z.
  - destruct s; vm_compute; discriminate.
  - intros H. now apply ofZ_not_nan in H.
Qed.

(** *** Sums of non-negative numbers are numbers *)

Lemma leb_zero_nonnegative (x : float) :
  (0 <=? x) = true -> nonnegative (Prim2SF x).
Proof.
  rewrite FloatAxioms.leb_spec. change (Prim2SF 0) with (S754_zero false).
  unfold SFleb. destruct (Prim2SF x) as [s|s| |s m e]; simpl;
    try destruct s; simpl; intros H; try exact I; discriminate.
Qed.

Lemma SFmul_nonnegative (x c : spec_float) :
  nonnegative x -> positiveFinite c -> nonnegative (SF64mul x c).
Proof.
  destruct c as [sc|sc| |[|] mc ec]; try contradiction. intros Hx _.
  destruct x as [s|[|]| |[|] m e]; try contradiction; try exact I.
  unfold SF64mul, SFmul.
  pose proof (binary_round_aux_sign prec emax (xorb false false)
                (Z.pos (m * mc)) (e + ec) loc_Exact ltac:(lia)) as H.
  destruct (binary_round_aux _ _ _ _ _ _) as [s|s| |s m' e'];
    try contradiction; subst s; exact I.
Qed.

Lemma SFadd_nonnegative (x y : spec_float) :
  nonnegative x -> nonnegative y -> nonnegative (SF64add x y).
Proof.
  destruct x as [sx|[|]| |[|] mx ex]; try contradiction;
    destruct y as [sy|[|]| |[|] my ey]; try contradiction;
    intros _ _; try exact I; try (destruct sx, sy; exact I).
  unfold SF64add, SFadd. cbv zeta. simpl cond_Zopp.
  set (a := fst (shl_align mx ex _)). set (b := fst (shl_align my ey _)).
  change (Z.pos a + Z.pos b)%Z with (Z.pos (a + b)).
  unfold binary_normalize, binary_round.
  destruct (shl_align (a + b) _ _) as [mz ez].
  pose proof (binary_round_aux_sign prec emax false (Z.pos mz) ez loc_Exact
                ltac:(lia)) as H.
  destruct (binary_round_aux _ _ _ _ _ _) as [s|s| |s m' e'];
    try contradiction; subst s; exact I.
Qed.

(** For percentages that are not below zero the weighted sum is a number. *)
Lemma weightedScore_number (matchPct technicalPct softPct : float) :
  (0 <=? matchPct) = true ->
  (0 <=? technicalPct) = true ->
  (0 <=? softPct) = true ->
  is_nan (Page.weightedScore matchPct technicalPct softPct) = false.
Proof.
  intros Hm Ht Hs. apply leb_zero_nonnegative in Hm, Ht, Hs.
  assert (H6 : positiveFinite (Prim2SF 0.6)) by exact I.
  assert (H3 : positiveFinite (Prim2SF 0.3)) by exact I.
  assert (H1 : positiveFinite (Prim2SF 0.1)) by exact I.
  assert (H : nonnegative (Prim2SF (Page.weightedScore matchPct technicalPct softPct))).
  { unfold Page.weightedScore.
    rewrite !FloatAxioms.add_spec, !FloatAxioms.mul_spec.
    auto using SFadd_nonnegative, SFmul_nonnegative. }
  unfold is_nan. rewrite FloatAxioms.eqb_spec.
  destruct (Prim2SF (Page.weightedScore matchPct technicalPct softPct))
    as [s|s| |s m e]; try contradiction; unfold SFeqb; simpl.
  - reflexivity.
  - destruct s; reflexivity.
  - destruct s; [contradiction|]. now rewrite Z.compare_refl, Pos.compare_cont_refl.
Qed.

(** Clamping a rounded sum that is a number leaves it within [0,100]. *)
Lemma readinessOf_bounds (matchPct technicalPct softPct : float) :
  is_nan (Page.weightedScore matchPct technicalPct softPct) = false ->
  (0 <=? Page.readinessOf matchPct technicalPct softPct) = true
  /\ (Page.readinessOf matchPct technicalPct softPct <=? 100) = true.
Proof.
  intros Hnum. unfold Page.readinessOf. cbv zeta.
  set (score := Math_round (Page.weightedScore matchPct technicalPct softPct)).
  assert (Hscore : Prim2SF score <> S754_nan).
  { intros E. apply Math_round_nan, is_nan_Prim2SF in E. congruence. }
  destruct (Math_min_cases 100 score) as [[Ey Hy]|[[Ey Hy]|[Ey [Hy|Hy]]]];
    try (now destruct Hscore); try discriminate; rewrite Ey.
  - split; reflexivity.
  - destruct (Math_max_cases 0 score) as [[Er Hr]|[[Er Hr]|[Er [Hr|Hr]]]];
      try (now destruct Hscore); try discriminate; rewrite Er.
    + split; reflexivity.
    + split; assumption.
Qed.

(** The score that the page shows is within [0,100] as soon as the three
    percentages are not below zero. *)
Lemma readinessScore_within_bounds (analysis : option Page.AnalysisResult) :
  (0 <=? Page.matchPercentage analysis) = true ->
  (0 <=? Page.technicalMatchPercentage analysis) = true ->
  (0 <=? Page.softMatchPercentage analysis) = true ->
  (0 <=? Page.readinessScore analysis) = true
  /\ (Page.readinessScore analysis <=? 100) = true.
Proof.
  intros Hm Ht Hs. destruct analysis as [a|]; [|split; reflexivity].
  unfold Page.readinessScore.
  now apply readinessOf_bounds, weightedScore_number.
Qed.

(** *** The percentages of the page are numbers that are not below zero *)










End NumberFacts.

(* ================================================================= *)
(** * Further properties of the code *)

(** ** Substrings, segments and characters *)

Section SubstringFacts.

Import JSString.

Local Arguments String.append !s1 s2 : simpl nomatch.

Lemma startsWith_spec (s pat : string) :
  startsWith s pat = true <-> exists post, s = pat +:+ post.
Proof.
  revert s. induction pat as [|p pat IH]; intros s; simpl.
  - split; [intros _; now exists s | intros _; apply startsWith_empty].
  - destruct s as [|c s]; simpl.
    + split; [discriminate | intros [post H]; discriminate].
    + rewrite andb_true_iff, IH. split.
      * intros [E [post ->]]. apply Ascii.eqb_eq in E. subst. now exists post.
      * intros [post H]. injection H as -> ->. split; [apply Ascii.eqb_refl | eauto].
Qed.

Lemma includes_unfold (s sub : string) :
  includes s sub
  = startsWith s sub
    || match s with
       | EmptyString => false
       | String _ s' => includes s' sub
       end.
Proof. destruct s; reflexivity. Qed.

(** [s.includes(sub)] holds exactly when [sub] stands somewhere in [s]. *)
Lemma includes_spec (s sub : string) :
  includes s sub = true <-> exists pre post, s = pre +:+ sub +:+ post.
Proof.
  split.
  - induction s as [|c s IH]; rewrite includes_unfold, orb_true_iff.
    + intros [H|H]; [|discriminate].
      apply startsWith_spec in H as [post ->]. now exists EmptyString, post.
    + intros [H|H].
      * apply startsWith_spec in H as [post ->]. now exists EmptyString, post.
      * destruct (IH H) as (pre & post & ->). now exists (String c pre), post.
  - intros (pre & post & ->). induction pre as [|c pre IH].
    + assert (H : startsWith (sub +:+ post) sub = true)
        by (apply startsWith_spec; eauto).
      change (EmptyString +:+ sub +:+ post) with (sub +:+ post).
      now rewrite includes_unfold, H.
    + rewrite includes_unfold. simpl. rewrite IH. apply orb_true_r.
Qed.

Lemma append_empty_r (s : string) : s +:+ EmptyString = s.
Proof. induction s as [|c s IH]; simpl; [reflexivity | now rewrite IH]. Qed.

Lemma append_assoc (a b c : string) : (a +:+ b) +:+ c = a +:+ (b +:+ c).
Proof. induction a as [|x a IH]; simpl; [reflexivity | now rewrite IH]. Qed.

Lemma includes_refl (s : string) : includes s s = true.
Proof.
  apply includes_spec. exists EmptyString, EmptyString.
  simpl. now rewrite append_empty_r.
Qed.

(** What includes a string includes its end. *)
Lemma includes_suffix (s a b : string) :
  includes s (a +:+ b) = true -> includes s b = true.
Proof.
  rewrite !includes_spec. intros (pre & post & ->).
  exists (pre +:+ a), post. now rewrite !append_assoc.
Qed.

Lemma countMatchesFrom_unfold (pat s : string) :
  countMatchesFrom pat s 0
  = if startsWith s pat then
      S (match s with
         | EmptyString => 0
         | String _ s' => countMatchesFrom pat s' (Nat.pred (String.length pat))
         end)
    else
      match s with
      | EmptyString => 0
      | String _ s' => countMatchesFrom pat s' 0
      end.
Proof. destruct s; reflexivity. Qed.

(** There is no match of a pattern exactly when the string does not
    include it. *)
Lemma countMatches_zero (pat s : string) :
  countMatches pat s = 0 <-> includes s pat = false.
Proof.
  unfold countMatches.
  induction s as [|c s IH]; rewrite includes_unfold, countMatchesFrom_unfold;
    destruct (startsWith _ pat); cbn [orb]; try (split; congruence).
  exact IH.
Qed.

(** A segment without separator is one segment. *)
Lemma split_one (sep : ascii) (s : string) :
  hasChar sep s = false -> split sep s = [s].
Proof.
  induction s as [|c s IH]; simpl; [reflexivity|].
  intros H. apply orb_false_iff in H as [Hc Hs].
  rewrite Hc, (IH Hs). reflexivity.
Qed.

(** Splitting two texts joined by the separator gives the segments of the
    first followed by those of the second. *)
Lemma split_app (sep : ascii) (a b : string) :
  split sep (a +:+ String sep b) = split sep a ++ split sep b.
Proof.
  induction a as [|c a IH]; simpl.
  - now rewrite Ascii.eqb_refl.
  - destruct (Ascii.eqb c sep); [now rewrite IH|].
    rewrite IH. pose proof (split_not_nil sep a) as Hnil.
    destruct (split sep a); [contradiction | reflexivity].
Qed.

(** Splitting what was joined gives the segments back. *)
Lemma split_join (sep : ascii) (segs : list string) :
  segs <> [] ->
  Forall (fun seg => hasChar sep seg = false) segs ->
  split sep (join sep segs) = segs.
Proof.
  intros Hne Hall. induction Hall as [|seg segs Hseg Hall IH]; [contradiction|].
  destruct segs as [|seg' segs].
  - simpl. now apply split_one.
  - change (join sep (seg :: seg' :: segs))
      with (seg +:+ String sep (join sep (seg' :: segs))).
    rewrite split_app, split_one by assumption.
    rewrite IH by discriminate. reflexivity.
Qed.

Lemma toLowerChar_idempotent (c : ascii) :
  toLowerChar (toLowerChar c) = toLowerChar c.
Proof.
  destruct c as [b0 b1 b2 b3 b4 b5 b6 b7].
  destruct b0, b1, b2, b3, b4, b5, b6, b7; reflexivity.
Qed.

Lemma toLowerCase_idempotent (s : string) :
  toLowerCase (toLowerCase s) = toLowerCase s.
Proof.
  induction s as [|c s IH]; simpl; [reflexivity|].
  now rewrite toLowerChar_idempotent, IH.
Qed.

Lemma allChars_removeAll (cls : ascii -> bool) (s : string) :
  allChars (fun c => negb (cls c)) (removeAll cls s) = true.
Proof.
  induction s as [|c s IH]; simpl; [reflexivity|].
  destruct (cls c) eqn:E; simpl; [exact IH | now rewrite E, IH].
Qed.

Lemma removeAll_none (cls : ascii -> bool) (s : string) :
  allChars (fun c => negb (cls c)) s = true -> removeAll cls s = s.
Proof.
  induction s as [|c s IH]; simpl; [reflexivity|].
  intros H. apply andb_true_iff in H as [Hc Hs].
  apply negb_true_iff in Hc. now rewrite Hc, IH.
Qed.

Lemma removeAll_all (cls : ascii -> bool) (s : string) :
  allChars cls s = true -> removeAll cls s = EmptyString.
Proof.
  induction s as [|c s IH]; simpl; [reflexivity|].
  intros H. apply andb_true_iff in H as [Hc Hs]. now rewrite Hc, IH.
Qed.

Lemma allChars_weaken (p q : ascii -> bool) (s : string) :
  (forall c, p c = true -> q c = true) ->
  allChars p s = true -> allChars q s = true.
Proof.
  intros Hpq. induction s as [|c s IH]; simpl; [reflexivity|].
  intros H. apply andb_true_iff in H as [Hc Hs]. now rewrite (Hpq c Hc), IH.
Qed.

Lemma allChars_trimStart (p : ascii -> bool) (s : string) :
  allChars p s = true -> allChars p (trimStart s) = true.
Proof.
  induction s as [|c s IH]; simpl; [reflexivity|].
  intros H. destruct (isWhiteSpace c); [|exact H].
  apply andb_true_iff in H as [_ Hs]. now apply IH.
Qed.

Lemma allChars_trimEnd (p : ascii -> bool) (s : string) :
  allChars p s = true -> allChars p (trimEnd s) = true.
Proof.
  induction s as [|c s IH]; simpl; [reflexivity|].
  intros H. apply andb_true_iff in H as [Hc Hs]. specialize (IH Hs).
  destruct (trimEnd s) as [|d r].
  - destruct (isWhiteSpace c); simpl; [reflexivity | now rewrite Hc].
  - simpl in *. now rewrite Hc, IH.
Qed.

Lemma allChars_toLowerCase (p : ascii -> bool) (s : string) :
  (forall c, p c = true -> p (toLowerChar c) = true) ->
  allChars p s = true -> allChars p (toLowerCase s) = true.
Proof.
  intros Hp. induction s as [|c s IH]; simpl; [reflexivity|].
  intros H. apply andb_true_iff in H as [Hc Hs]. now rewrite (Hp c Hc), IH.
Qed.

(** A string without white space is not changed by [trim]. *)
Lemma trim_no_space (s : string) :
  allChars (fun c => negb (isWhiteSpace c)) s = true -> trim s = s.
Proof.
  intros H. unfold trim.
  assert (Hstart : trimStart s = s).
  { destruct s as [|c s]; [reflexivity|]. simpl in *.
    apply andb_true_iff in H as [Hc _]. apply negb_true_iff in Hc. now rewrite Hc. }
  rewrite Hstart. induction s as [|c s IH]; simpl; [reflexivity|].
  simpl in H. apply andb_true_iff in H as [Hc Hs]. apply negb_true_iff in Hc.
  assert (Hs' : trimStart s = s).
  { destruct s as [|d s]; [reflexivity|]. simpl in *.
    apply andb_true_iff in Hs as [Hd _]. apply negb_true_iff in Hd. now rewrite Hd. }
  rewrite (IH Hs Hs'). destruct s; [now rewrite Hc | reflexivity].
Qed.

End SubstringFacts.

(** ** The fuzzy match and the counts of the dashboard *)

Section MatchingProperties.

Import JSString Page.

Lemma filter_sublist_mono {A} (p q : A -> bool) (l : list A) :
  (forall x, x ∈ l -> p x = true -> q x = true) ->
  sublist (List.filter p l) (List.filter q l).
Proof.
  induction l as [|x l IH]; intros H; simpl; [constructor|].
  assert (IH' : sublist (List.filter p l) (List.filter q l)).
  { apply IH. intros y Hy. apply H. now constructor. }
  destruct (p x) eqn:Ep.
  - rewrite (H x) by (constructor || assumption). now constructor.
  - destruct (q x); [now constructor | assumption].
Qed.

Lemma filter_filter_sublist {A} (p q : A -> bool) (l : list A) :
  sublist (List.filter p (List.filter q l)) (List.filter p l).
Proof.
  induction l as [|x l IH]; simpl; [constructor|].
  destruct (q x), (p x) eqn:Ep; simpl; rewrite ?Ep; try assumption;
    now constructor.
Qed.

Lemma normalize_unfold (s : string) :
  normalize s = removeAll isSkipped (toLowerCase (trim s)).
Proof. reflexivity. Qed.

Lemma toLowerCase_removeAll (cls : ascii -> bool) (s : string) :
  toLowerCase (removeAll cls (toLowerCase s)) = removeAll cls (toLowerCase s).
Proof.
  induction s as [|c s IH]; simpl; [reflexivity|].
  destruct (cls (toLowerChar c)); simpl; [exact IH|].
  now rewrite toLowerChar_idempotent, IH.
Qed.

Lemma skipped_toLowerChar (c : ascii) :
  isSkipped c = true -> isSkipped (toLowerChar c) = true.
Proof.
  destruct c as [b0 b1 b2 b3 b4 b5 b6 b7].
  destruct b0, b1, b2, b3, b4, b5, b6, b7; intros H; try discriminate H;
    reflexivity.
Qed.

(** What consists of white space, dots and hyphens normalizes to the empty
    string. *)
Lemma normalize_skipped (s : string) :
  allChars isSkipped s = true -> normalize s = EmptyString.
Proof.
  intros H. rewrite normalize_unfold. apply removeAll_all.
  apply allChars_toLowerCase; [apply skipped_toLowerChar|].
  unfold trim. now apply allChars_trimEnd, allChars_trimStart.
Qed.

(** X1.  [normalize] changes nothing in what it returns: its result has no
    white space, dot or hyphen and no capital left. *)
Theorem normalize_idempotent (s : string) :
  normalize (normalize s) = normalize s
  /\ allChars (fun c => negb (isSkipped c)) (normalize s) = true
  /\ toLowerCase (normalize s) = normalize s.
Proof.
  assert (Hclean : allChars (fun c => negb (isSkipped c)) (normalize s) = true)
    by apply allChars_removeAll.
  assert (Hlower : toLowerCase (normalize s) = normalize s)
    by apply toLowerCase_removeAll.
  split; [|split; assumption].
  rewrite (normalize_unfold (normalize s)), trim_no_space, Hlower.
  - now apply removeAll_none.
  - revert Hclean. apply allChars_weaken. intros c Hc.
    apply negb_true_iff in Hc. apply negb_true_iff.
    unfold isSkipped in Hc. now apply orb_false_iff in Hc as [_ Hc].
Qed.

(** The array that the page posts as userSkills. *)
Lemma requestBody_userSkills (st : State) :
  Gateway.userSkills (requestBody st)
  = Gateway.SkillArray (List.filter truthy (List.map trim (split "," (userSkills st)))).
Proof. reflexivity. Qed.

(** A skill that is one of the trimmed segments of the user's text is
    matched by the fuzzy pass. *)
Lemma posted_skill_isMatched (userSkills skill : string) :
  skill ∈ List.filter truthy (List.map trim (split "," userSkills)) ->
  isMatched (List.map normalize (split "," userSkills)) skill = true.
Proof.
  intros Hin. apply elem_of_filter_bool in Hin as [Hin _].
  apply list_elem_of_In, in_map_iff in Hin as (seg & <- & Hseg).
  unfold isMatched. apply existsb_exists. exists (normalize seg).
  split; [now apply in_map|].
  assert (E : normalize (trim seg) = normalize seg)
    by (rewrite !normalize_unfold; now rewrite trim_idempotent).
  now rewrite E, includes_refl.
Qed.

(** The matched skills that the page computes from an analysis are the
    skills that the loop of the handler pushed on [matchedSkills]. *)
Lemma matchedSkills_analyze (userSkills : string) (required : list string) :
  matchedSkills (Some (analyze userSkills required))
  = List.filter (isMatched (List.map normalize (split "," userSkills))) required.
Proof.
  rewrite analyze_fields. simpl.
  set (m := isMatched (List.map normalize (split "," userSkills))).
  apply filter_ext_in. intros s Hs%list_elem_of_In.
  destruct (m s) eqn:Em; simpl.
  - apply negb_true_iff, arrayIncludes_false.
    rewrite elem_of_filter_bool, Em. intros [_ H]. discriminate.
  - apply negb_false_iff, arrayIncludes_elem_of.
    apply elem_of_filter_bool. now rewrite Em.
Qed.

(** X6.  The lists that the handler builds are the ones that the page computes
    again: the matched skills that are shown are the skills the loop
    pushed on [matchedSkills], and matched and missing skills add up to
    the required ones. *)
Theorem matched_list_and_counts (userSkills : string) (required : list string) :
  let a := analyze userSkills required in
  matchedSkills (Some a)
  = fst (matchSkills (List.map normalize (split "," userSkills)) required)
  /\ length (matchedSkills (Some a)) + length (missingSkills a)
     = length (requiredSkills a).
Proof.
  intros a. subst a. rewrite matchedSkills_analyze, matchSkills_filter.
  split; [reflexivity|].
  rewrite analyze_fields. simpl.
  rewrite <- length_app. now rewrite filter_complement_perm.
Qed.

(** X7.  The two numerators of the category percentages: every matched skill
    counts in exactly one of them, and neither exceeds the size of its
    category. *)
Theorem category_numerators (userSkills : string) (required : list string) :
  let a := analyze userSkills required in
  let matched := matchedSkills (Some a) in
  let matchedTech := List.filter (fun s => arrayIncludes (technicalSkills a) s) matched in
  let matchedSoft := List.filter (fun s => arrayIncludes (softSkills a) s) matched in
  length matchedTech + length matchedSoft = length matched
  /\ length matchedTech <= length (technicalSkills a)
  /\ length matchedSoft <= length (softSkills a)
  /\ length matched <= length (requiredSkills a).
Proof.
  intros a matched matchedTech matchedSoft.
  pose proof (matchedSkills_analyze userSkills required) as Hm.
  fold a in Hm. fold matched in Hm.
  set (m := isMatched (List.map normalize (split "," userSkills))) in *.
  assert (Ha : a = analyze userSkills required) by reflexivity.
  rewrite analyze_fields in Ha.
  assert (Htech : technicalSkills a = List.filter isTechnical required)
    by now rewrite Ha.
  assert (Hsoft : softSkills a = List.filter (fun s => negb (isTechnical s)) required)
    by now rewrite Ha.
  assert (Hreq : requiredSkills a = required) by now rewrite Ha.
  assert (Et : matchedTech = List.filter isTechnical matched).
  { subst matchedTech. apply filter_ext_in. intros s Hs%list_elem_of_In.
    rewrite Hm in Hs. apply elem_of_filter_bool in Hs as [Hs _]. rewrite Htech.
    destruct (isTechnical s) eqn:Ek.
    - apply arrayIncludes_elem_of, elem_of_filter_bool. auto.
    - apply arrayIncludes_false. rewrite elem_of_filter_bool. intros [_ H].
      congruence. }
  assert (Es : matchedSoft = List.filter (fun s => negb (isTechnical s)) matched).
  { subst matchedSoft. apply filter_ext_in. intros s Hs%list_elem_of_In.
    rewrite Hm in Hs. apply elem_of_filter_bool in Hs as [Hs _]. rewrite Hsoft.
    destruct (isTechnical s) eqn:Ek; simpl.
    - apply arrayIncludes_false. rewrite elem_of_filter_bool, Ek. intros [_ H].
      discriminate.
    - apply arrayIncludes_elem_of, elem_of_filter_bool. now rewrite Ek. }
  rewrite Et, Es, Htech, Hsoft, Hreq, Hm.
  split; [rewrite <- length_app; now rewrite filter_complement_perm|].
  split; [apply sublist_length, filter_filter_sublist|].
  split; [apply sublist_length, filter_filter_sublist|].
  apply sublist_length, filter_sublist.
Qed.

Lemma isMatched_app (l1 l2 : list string) (skill : string) :
  isMatched (l1 ++ l2) skill = isMatched l1 skill || isMatched l2 skill.
Proof. unfold isMatched. apply existsb_app. Qed.

(** X5.  Adding skills to the user's text never makes a skill missing: what is
    missing with the longer text was missing with the shorter one. *)
Theorem more_user_skills_fewer_missing (userSkills more : string)
    (required : list string) :
  sublist (missingSkills (analyze (userSkills +:+ "," +:+ more) required))
          (missingSkills (analyze userSkills required)).
Proof.
  rewrite !analyze_fields. simpl.
  change ("," +:+ more) with (String ","%char more).
  rewrite split_app, map_app.
  apply filter_sublist_mono. intros s _.
  rewrite isMatched_app, !negb_true_iff. now intros [H _]%orb_false_iff.
Qed.

(** X3.  A segment of the user's text that holds only white space, dots and
    hyphens makes every required skill a matched one. *)
Theorem blank_segment_matches_everything (userSkills seg : string)
    (required : list string) :
  seg ∈ split "," userSkills ->
  allChars isSkipped seg = true ->
  missingSkills (analyze userSkills required) = []
  /\ matchedSkills (Some (analyze userSkills required)) = required.
Proof.
  intros Hseg Hblank.
  assert (Hall : forall skill,
             isMatched (List.map normalize (split "," userSkills)) skill = true).
  { intros skill. apply isMatched_empty_segment.
    rewrite <- (normalize_skipped seg Hblank).
    now apply list_elem_of_In, in_map, list_elem_of_In. }
  rewrite matchedSkills_analyze, analyze_fields. simpl. split.
  - apply filter_none. intros s. now rewrite Hall.
  - now apply filter_all.
Qed.

Lemma blank_segment_matches_everything_witness :
  " - " ∈ split "," "python, - "
  /\ allChars isSkipped " - " = true
  /\ missingSkills (analyze "python, - " ["React"; "SQL"]) = [].
Proof.
  assert (Hseg : " - " ∈ split "," "python, - ")
    by (apply list_elem_of_In; simpl; auto).
  assert (Hblank : allChars isSkipped " - " = true) by reflexivity.
  split; [exact Hseg|]. split; [exact Hblank|].
  exact (proj1 (blank_segment_matches_everything "python, - " " - "
                  ["React"; "SQL"] Hseg Hblank)).
Defined.

(** X4.  A required skill that holds only white space, dots and hyphens is
    matched whatever the user's text is: its normal form is empty and
    every segment includes it. *)
Theorem blank_skill_always_matched (userSkills skill : string)
    (required : list string) :
  allChars isSkipped skill = true ->
  skill ∉ missingSkills (analyze userSkills required).
Proof.
  intros Hblank. rewrite analyze_fields. simpl.
  rewrite elem_of_filter_bool. intros [_ H]. apply negb_true_iff in H.
  unfold isMatched in H. rewrite (normalize_skipped skill Hblank) in H.
  pose proof (split_not_nil "," userSkills) as Hnil.
  destruct (split "," userSkills) as [|seg segs]; [contradiction|].
  simpl in H. now rewrite includes_empty in H.
Qed.

Lemma blank_skill_always_matched_witness :
  allChars isSkipped "-" = true
  /\ "-" ∉ missingSkills (analyze "python" ["React"; "-"]).
Proof.
  assert (Hblank : allChars isSkipped "-" = true) by reflexivity.
  split; [exact Hblank|].
  exact (blank_skill_always_matched "python" "-" ["React"; "-"] Hblank).
Defined.

End MatchingProperties.

(** ** The gateway on every kind of request *)

Section GatewayCoverage.

Import JSString Gateway.

Variable generateContent : string -> ModelReply.

(** How [POST] ends on a parsed body, case by case. *)
Lemma POST_cases (body : RequestBody) (store : list JobAnalysis) :
  POST generateContent (Some body) store
  = match generateContent (prompt (jobDescription body)) with
    | ModelFails => (Responds 500 (ErrorPayload "Failed to analyze job"), store)
    | ModelAnswers text =>
        let extracted :=
          extractSkills (match text with Some t => t | None => EmptyString end) in
        let succeed missing :=
          (Responds 200 (SkillsPayload extracted missing),
           store ++ [storedEntry body extracted missing]) in
        match userSkills body with
        | SkillArray skills =>
            succeed (List.filter (fun s => negb (arrayIncludes skills s)) extracted)
        | SkillText t =>
            succeed (List.filter (fun s => negb (includes t s)) extracted)
        | SkillAbsent =>
            match extracted with
            | [] => succeed []
            | _ :: _ => (Responds 500 (ErrorPayload "Failed to analyze job"), store)
            end
        end
    end.
Proof.
  unfold POST, handler, parseBody, bind, ret, tryCatch.
  rewrite analyzeJob_cases.
  destruct (generateContent (prompt (jobDescription body))) as [|text];
    [reflexivity|].
  cbv zeta. destruct (userSkills body) as [skills|t|]; try reflexivity.
  destruct (extractSkills _); reflexivity.
Qed.

(** X16.  The store only grows, by at most one entry a request, and it grows
    exactly when the request is answered with status 200. *)
Theorem store_append_only (req : option RequestBody) (store : list JobAnalysis) :
  exists added,
    snd (POST generateContent req store) = store ++ added
    /\ length added <= 1
    /\ (length added = 1 <->
        exists payload, fst (POST generateContent req store) = Responds 200 payload).
Proof.
  destruct req as [body|].
  - rewrite POST_cases.
    destruct (generateContent (prompt (jobDescription body))) as [|text]; cbv zeta.
    + exists []. rewrite app_nil_r. simpl. repeat split; try lia.
      intros [payload H]. discriminate.
    + destruct (userSkills body) as [skills|t|];
        try (eexists; split; [reflexivity|]; simpl; repeat split; eauto).
      destruct (extractSkills _).
      * eexists; split; [reflexivity|]; simpl; repeat split; eauto.
      * exists []. rewrite app_nil_r. simpl. repeat split; try lia.
        intros [payload H]. discriminate.
  - exists []. rewrite app_nil_r. simpl. repeat split; try lia.
    intros [payload H]. discriminate.
Qed.

(** X17.  Whatever the body holds, a response of status 200 carries the skills
    extracted from the model's answer, each one non-empty, trimmed and
    without comma, and its missing skills are some of them, in order. *)
Theorem success_payload_well_formed (body : RequestBody) (store : list JobAnalysis)
    (required missing : list string) :
  fst (POST generateContent (Some body) store)
  = Responds 200 (SkillsPayload required missing) ->
  (exists text,
      generateContent (prompt (jobDescription body)) = ModelAnswers text
      /\ required = extractSkills (match text with Some t => t | None => EmptyString end))
  /\ sublist missing required
  /\ Forall (fun s => s <> EmptyString /\ hasChar "," s = false /\ trim s = s) required.
Proof.
  rewrite POST_cases.
  destruct (generateContent (prompt (jobDescription body))) as [|text];
    [discriminate|].
  cbv zeta. intros H.
  assert (Hsub : required
                 = extractSkills (match text with Some t => t | None => EmptyString end)
                 /\ sublist missing required).
  { destruct (userSkills body) as [skills|t|]; simpl in H.
    - injection H as <- <-. split; [reflexivity | apply filter_sublist].
    - injection H as <- <-. split; [reflexivity | apply filter_sublist].
    - destruct (extractSkills _); simpl in H; [|discriminate].
      injection H as <- <-. split; [reflexivity | constructor]. }
  destruct Hsub as [-> Hsub]. split; [eauto|]. split; [exact Hsub|].
  apply extractSkills_entries.
Qed.

End GatewayCoverage.

Lemma success_payload_well_formed_witness :
  let model := fun _ : string => Gateway.ModelAnswers (Some "React, SQL") in
  let body := {| Gateway.jobDescription := "We need React and SQL";
                 Gateway.userSkills := Gateway.SkillText "I know React" |} in
  fst (Gateway.POST model (Some body) [])
  = Gateway.Responds 200 (Gateway.SkillsPayload ["React"; "SQL"] ["SQL"])
  /\ sublist ["SQL"] ["React"; "SQL"].
Proof.
  intros model body.
  assert (H : fst (Gateway.POST model (Some body) [])
              = Gateway.Responds 200 (Gateway.SkillsPayload ["React"; "SQL"] ["SQL"]))
    by reflexivity.
  split; [exact H|].
  exact (proj1 (proj2 (success_payload_well_formed model body [] _ _ H))).
Defined.

Section GatewayEdges.

Import JSString Gateway.

Variable generateContent : string -> ModelReply.

(** X18.  When the body has no usable userSkills, the request fails with status
    500 as soon as the model names one skill, and it succeeds with two
    empty lists when the model names none: the callback of the filter,
    which is what throws, is never called on an empty array. *)
Theorem missing_userSkills_outcome (body : RequestBody) (store : list JobAnalysis)
    (text : option string) :
  userSkills body = SkillAbsent ->
  generateContent (prompt (jobDescription body)) = ModelAnswers text ->
  let extracted :=
    extractSkills (match text with Some t => t | None => EmptyString end) in
  (extracted = [] ->
   POST generateContent (Some body) store
   = (Responds 200 (SkillsPayload [] []), store ++ [storedEntry body [] []]))
  /\ (extracted <> [] ->
      POST generateContent (Some body) store
      = (Responds 500 (ErrorPayload "Failed to analyze job"), store)).
Proof.
  intros Habsent Hmodel extracted. rewrite POST_cases, Hmodel, Habsent. cbv zeta.
  fold extracted. destruct extracted as [|x l].
  - split; [reflexivity | intros H; now destruct H].
  - split; [discriminate | reflexivity].
Qed.

End GatewayEdges.

Lemma missing_userSkills_outcome_witness :
  let model := fun _ : string => Gateway.ModelAnswers (Some "React, SQL") in
  let body := {| Gateway.jobDescription := "We need React and SQL";
                 Gateway.userSkills := Gateway.SkillAbsent |} in
  Gateway.userSkills body = Gateway.SkillAbsent
  /\ Gateway.POST model (Some body) []
     = (Gateway.Responds 500 (Gateway.ErrorPayload "Failed to analyze job"), []).
Proof.
  intros model body. split; [reflexivity|].
  apply (proj2 (missing_userSkills_outcome model body [] (Some "React, SQL")
                  eq_refl eq_refl)).
  discriminate.
Defined.

Section ExtractionRoundTrip.

Import JSString Gateway.

(** X19.  An answer written as skills joined by commas is read back as those
    skills, trimmed, the empty ones left out; skills that are non-empty
    and trimmed are read back as they are. *)
Theorem extractSkills_join (segs : list string) :
  Forall (fun seg => hasChar "," seg = false) segs ->
  extractSkills (join "," segs) = List.filter truthy (List.map trim segs)
  /\ (Forall (fun seg => seg <> EmptyString /\ trim seg = seg) segs ->
      extractSkills (join "," segs) = segs).
Proof.
  intros Hcomma.
  assert (E : extractSkills (join "," segs) = List.filter truthy (List.map trim segs)).
  { unfold extractSkills. destruct segs as [|seg segs]; [reflexivity|].
    rewrite split_join; [reflexivity | discriminate | assumption]. }
  split; [exact E|]. intros Hwf. rewrite E. clear E Hcomma.
  induction Hwf as [|seg segs [Hne Htrim] Hwf IH]; simpl; [reflexivity|].
  rewrite Htrim, IH. destruct seg; [contradiction | reflexivity].
Qed.

End ExtractionRoundTrip.

Lemma extractSkills_join_witness :
  Forall (fun seg => JSString.hasChar "," seg = false) ["React"; " Team work "; " "; "SQL"]
  /\ Gateway.extractSkills "React, Team work , ,SQL" = ["React"; "Team work"; "SQL"].
Proof.
  assert (H : Forall (fun seg => JSString.hasChar "," seg = false)
                ["React"; " Team work "; " "; "SQL"])
    by (repeat constructor).
  split; [exact H|].
  exact (proj1 (extractSkills_join ["React"; " Team work "; " "; "SQL"] H)).
Defined.

(** ** The page in front of the gateway *)

Section WiringProperties.

Import JSString Page.

(** X20.  The exact pass of the gateway and the fuzzy pass of the page disagree
    in one direction only: every skill that the page shows as missing is
    in the missingSkills that the gateway answered to the page's request. *)
Theorem fuzzy_missing_within_exact_missing
    (generateContent : string -> Gateway.ModelReply)
    (store : list Gateway.JobAnalysis) (st : State)
    (required gatewayMissing : list string) :
  fst (Gateway.POST generateContent (Some (requestBody st)) store)
  = Gateway.Responds 200 (Gateway.SkillsPayload required gatewayMissing) ->
  sublist (missingSkills (analyze (userSkills st) required)) gatewayMissing.
Proof.
  rewrite POST_cases, requestBody_userSkills.
  destruct (generateContent _) as [|text]; [discriminate|].
  cbv zeta. simpl. intros H. injection H as <- <-.
  rewrite analyze_fields. simpl.
  apply filter_sublist_mono. intros s _ Hs.
  apply negb_true_iff in Hs. apply negb_true_iff, arrayIncludes_false.
  intros Hin. apply posted_skill_isMatched in Hin. congruence.
Qed.

Lemma fuzzy_missing_within_exact_missing_witness :
  let model := fun _ : string => Gateway.ModelAnswers (Some "React.js, SQL, Team work") in
  fst (Gateway.POST model (Some (requestBody exampleState)) [])
  = Gateway.Responds 200
      (Gateway.SkillsPayload ["React.js"; "SQL"; "Team work"]
                             ["React.js"; "SQL"; "Team work"])
  /\ missingSkills (analyze (userSkills exampleState) ["React.js"; "SQL"; "Team work"])
     = ["SQL"; "Team work"]
  /\ sublist (missingSkills (analyze (userSkills exampleState)
                               ["React.js"; "SQL"; "Team work"]))
             ["React.js"; "SQL"; "Team work"].
Proof.
  intros model.
  assert (H : fst (Gateway.POST model (Some (requestBody exampleState)) [])
              = Gateway.Responds 200
                  (Gateway.SkillsPayload ["React.js"; "SQL"; "Team work"]
                                         ["React.js"; "SQL"; "Team work"]))
    by reflexivity.
  split; [exact H|]. split; [reflexivity|].
  exact (fuzzy_missing_within_exact_missing model [] exampleState _ _ H).
Defined.

(** X21.  A click on Analyze, with both fields filled in and the gateway behind
    the request: when the model answers, the analysis is the one of the
    skills extracted from its answer, with no error; when the model fails,
    there is no analysis and the error is the one of a failed request.
    The page never makes the gateway throw on userSkills and never gets an
    unexpected format. *)
Theorem click_through_gateway
    (generateContent : string -> Gateway.ModelReply)
    (store : list Gateway.JobAnalysis) (st : State) :
  truthy (jobDescription st) = true ->
  truthy (userSkills st) = true ->
  let st' := handleAnalyze (Wiring.throughGateway generateContent store) st in
  loading st' = false
  /\ match generateContent (Gateway.prompt (jobDescription st)) with
     | Gateway.ModelFails =>
         analysis st' = None
         /\ error st' = Some "Analysis failed. Check server console/network tab."
     | Gateway.ModelAnswers text =>
         analysis st'
         = Some (analyze (userSkills st)
                   (Gateway.extractSkills
                      (match text with Some t => t | None => EmptyString end)))
         /\ error st' = None
     end.
Proof.
  intros Hjd Hus st'. subst st'. rewrite handleAnalyze_filled by assumption.
  simpl. split; [reflexivity|].
  unfold Wiring.throughGateway. rewrite POST_cases, requestBody_userSkills.
  change (Gateway.jobDescription (requestBody st)) with (jobDescription st).
  destruct (generateContent _) as [|text]; split; reflexivity.
Qed.

Lemma click_through_gateway_witness :
  let model := fun _ : string => Gateway.ModelAnswers (Some "React, SQL, Communication") in
  let fresh := setUserSkills "react, Python"
                 (setJobDescription "We need React and SQL" initialState) in
  analysis (handleAnalyze (Wiring.throughGateway model []) fresh)
  = Some (analyze "react, Python" exampleRequired).
Proof.
  intros model fresh.
  exact (proj1 (proj2 (click_through_gateway model [] fresh eq_refl eq_refl))).
Defined.

(** X9.  A click on Analyze with an empty field changes nothing of what the
    dashboard shows, whatever the gateway would have answered: only the
    error message is set. *)
Theorem click_with_empty_field post (st : State) :
  truthy (jobDescription st) = false \/ truthy (userSkills st) = false ->
  dashboard (handleAnalyze post st) = dashboard st
  /\ error (handleAnalyze post st)
     = Some "Please fill in both fields before analyzing."
  /\ loading (handleAnalyze post st) = loading st
  /\ jobDescription (handleAnalyze post st) = jobDescription st
  /\ userSkills (handleAnalyze post st) = userSkills st.
Proof.
  intros H. rewrite handleAnalyze_blank by assumption. repeat split.
Qed.

Lemma click_with_empty_field_witness :
  let cleared := setUserSkills EmptyString exampleState in
  let answering := fun _ : Gateway.RequestBody => SkillData ["Docker"] [] in
  truthy (userSkills cleared) = false
  /\ analysis (handleAnalyze answering cleared) = analysis exampleState.
Proof.
  intros cleared answering.
  assert (H : truthy (jobDescription cleared) = false
              \/ truthy (userSkills cleared) = false) by (right; reflexivity).
  split; [reflexivity|].
  exact (f_equal shownAnalysis (proj1 (click_with_empty_field answering cleared H))).
Defined.

(** X10.  When the gateway finds no skill at all, the dashboard shows 0 for the
    three percentages and for the readiness score, the tip of the lowest
    band, no suggestion, and the generic line as roadmap. *)
Theorem no_required_skill_dashboard (userSkills jobDescription : string) :
  let a := analyze userSkills [] in
  a = {| requiredSkills := []; missingSkills := [];
         technicalSkills := []; softSkills := [] |}
  /\ matchPercentage (Some a) = 0%float
  /\ technicalMatchPercentage (Some a) = 0%float
  /\ softMatchPercentage (Some a) = 0%float
  /\ readinessScore (Some a) = 0%float
  /\ readinessTip (Some a)
     = "Large gaps detected. Start with fundamentals (HTML/CSS/JS) and a single stack (e.g., React + Node)."
  /\ topSuggested (Some a) jobDescription = []
  /\ learningRoadmap (Some a) = [roadmapFallback].
Proof. repeat split. Qed.

End WiringProperties.

(** ** The suggestions and the roadmap *)

Section SuggestionProperties.

Import JSString Page.

Lemma filter_length_le {A} (p : A -> bool) (l : list A) :
  length (List.filter p l) <= length l.
Proof. apply sublist_length, filter_sublist. Qed.

(** X11.  A skill scores 0 exactly when its lowercased text does not occur in
    the lowercased job description; a skill that occurs scores at least 2,
    and no importance phrase can occur without the skill. *)
Theorem score_zero_iff_absent (jobDescription skill : string) :
  let lowerJD := toLowerCase jobDescription in
  let skillLower := toLowerCase skill in
  (skillScore jobDescription skill = 0%Z <-> includes lowerJD skillLower = false)
  /\ (includes lowerJD skillLower = true -> (2 <= skillScore jobDescription skill)%Z)
  /\ (skillScore jobDescription skill
      <= 40 + 2 * Z.of_nat (countMatches skillLower lowerJD))%Z.
Proof.
  intros lowerJD skillLower. rewrite skillScore_formula. cbv zeta.
  fold lowerJD skillLower.
  set (p := fun word : string =>
              includes lowerJD (word +:+ " " +:+ skillLower)
              || includes lowerJD (word +:+ " with " +:+ skillLower)).
  pose proof (filter_length_le p importanceWords) as Hk.
  change (length importanceWords) with 8 in Hk.
  pose proof (countMatches_zero skillLower lowerJD) as Hz.
  assert (Hp : includes lowerJD skillLower = false -> List.filter p importanceWords = []).
  { intros Hno. apply filter_none. intros word. unfold p.
    apply orb_false_iff. split.
    - destruct (includes lowerJD (word +:+ " " +:+ skillLower)) eqn:E; [|reflexivity].
      apply includes_suffix, includes_suffix in E. congruence.
    - destruct (includes lowerJD (word +:+ " with " +:+ skillLower)) eqn:E;
        [|reflexivity].
      apply includes_suffix, includes_suffix in E. congruence. }
  split; [split|split].
  - intros H. apply Hz. lia.
  - intros Hno. rewrite (Hp Hno). apply Hz in Hno. rewrite Hno. reflexivity.
  - intros Hyes.
    assert (countMatches skillLower lowerJD <> 0) by (rewrite Hz; congruence).
    lia.
  - lia.
Qed.

Lemma topSuggested_sorted (a : AnalysisResult) (jobDescription : string) :
  topSuggested (Some a) jobDescription
  = firstn 5 (sort (fun x y => (skillScore jobDescription y - skillScore jobDescription x)%Z)
                   (missingSkills a)).
Proof. apply topSuggested_firstn. Qed.

(** X12.  The list of suggestions holds five missing skills, or all of them
    when there are fewer: nothing but missing skills, as often as they are
    missing. *)
Theorem topSuggested_shape (a : AnalysisResult) (jobDescription : string) :
  length (topSuggested (Some a) jobDescription) = Nat.min 5 (length (missingSkills a))
  /\ (forall s, s ∈ topSuggested (Some a) jobDescription -> s ∈ missingSkills a)
  /\ (length (missingSkills a) <= 5 ->
      topSuggested (Some a) jobDescription ≡ₚ missingSkills a).
Proof.
  rewrite topSuggested_sorted.
  set (sorted := sort _ (missingSkills a)).
  assert (Hperm : sorted ≡ₚ missingSkills a) by apply sort_perm.
  split; [now rewrite length_firstn, Hperm|]. split.
  - intros s Hs. rewrite <- Hperm.
    eapply elem_of_sublist; [exact Hs | apply sublist_take].
  - intros Hshort. rewrite firstn_all2; [exact Hperm | now rewrite Hperm].
Qed.

Lemma topSuggested_shape_witness :
  let a := analyze "react, Python" exampleRequired in
  length (missingSkills a) <= 5
  /\ topSuggested (Some a) "Strong SQL needed" ≡ₚ missingSkills a.
Proof.
  intros a.
  assert (H : length (missingSkills a) <= 5) by (vm_compute; lia).
  split; [exact H|].
  exact (proj2 (proj2 (topSuggested_shape a "Strong SQL needed")) H).
Defined.

Lemma StronglySorted_app_elems {A} (R : A -> A -> Prop) (l1 l2 : list A) :
  StronglySorted R (l1 ++ l2) ->
  forall x y, x ∈ l1 -> y ∈ l2 -> R x y.
Proof.
  induction l1 as [|z l1 IH]; simpl; intros Hs x y Hx Hy.
  - inversion Hx.
  - inversion Hs as [|? ? Hs' Hall]; subst.
    apply list_elem_of_In in Hx. destruct Hx as [->|Hx].
    + rewrite Forall_forall in Hall. apply Hall, elem_of_app. now right.
    + apply IH; [assumption | now apply list_elem_of_In | assumption].
Qed.

(** X13.  No missing skill that is left out of the suggestions scores more than
    one that is listed. *)
Theorem suggestions_dominate (a : AnalysisResult) (jobDescription s t : string) :
  s ∈ topSuggested (Some a) jobDescription ->
  t ∈ missingSkills a ->
  t ∉ topSuggested (Some a) jobDescription ->
  (skillScore jobDescription t <= skillScore jobDescription s)%Z.
Proof.
  rewrite topSuggested_sorted.
  set (f := skillScore jobDescription).
  set (sorted := sort _ (missingSkills a)).
  intros Hs Ht Hnot.
  assert (Hsorted : StronglySorted (fun x y => (f y <= f x)%Z) sorted).
  { apply Sorted_StronglySorted; [|apply sort_descending].
    intros x y z Hxy Hyz. lia. }
  rewrite <- (firstn_skipn 5 sorted) in Hsorted.
  apply (StronglySorted_app_elems _ _ _ Hsorted s t Hs).
  assert (Hin : t ∈ firstn 5 sorted ++ skipn 5 sorted).
  { rewrite firstn_skipn. unfold sorted. now rewrite sort_perm. }
  apply elem_of_app in Hin as [Hin|Hin]; [contradiction | assumption].
Qed.

Lemma suggestions_dominate_witness :
  let jobDescription := "sql css git aws vue api" in
  let a := analyze "python" ["Java"; "SQL"; "CSS"; "Git"; "AWS"; "Vue"] in
  ("SQL" ∈ topSuggested (Some a) jobDescription)
  /\ ("Java" ∈ missingSkills a)
  /\ ("Java" ∉ topSuggested (Some a) jobDescription)
  /\ (skillScore jobDescription "Java" <= skillScore jobDescription "SQL")%Z.
Proof.
  intros jobDescription a.
  assert (Hs : "SQL" ∈ topSuggested (Some a) jobDescription)
    by (apply list_elem_of_In; vm_compute; auto).
  assert (Ht : "Java" ∈ missingSkills a)
    by (apply list_elem_of_In; vm_compute; auto).
  assert (Hnot : "Java" ∉ topSuggested (Some a) jobDescription).
  { intros H. apply list_elem_of_In in H. vm_compute in H.
    repeat (destruct H as [H|H]; [discriminate H|]). exact H. }
  split; [exact Hs|]. split; [exact Ht|]. split; [exact Hnot|].
  exact (suggestions_dominate a jobDescription "SQL" "Java" Hs Ht Hnot).
Defined.

Lemma insertSorted_same_score (f : string -> Z) (v : Z) (x : string) (l : list string) :
  List.filter (fun s => (f s =? v)%Z) (insertSorted (fun a b => (f b - f a)%Z) x l)
  = List.filter (fun s => (f s =? v)%Z) (x :: l).
Proof.
  induction l as [|b l IH]; [reflexivity|].
  simpl insertSorted. destruct (Z.leb_spec (f b - f x) 0) as [Hle|Hgt];
    [reflexivity|].
  simpl. simpl in IH. rewrite IH.
  destruct (Z.eqb_spec (f x) v), (Z.eqb_spec (f b) v); try reflexivity. lia.
Qed.

(** X14.  Skills of equal score keep, in the sorted array, the order they have
    in missingSkills. *)
Theorem ties_keep_order (jobDescription : string) (missing : list string) (v : Z) :
  let scoreOf := skillScore jobDescription in
  List.filter (fun s => (scoreOf s =? v)%Z)
              (List.map skill (sort byScoreDescending (rankSkills jobDescription missing)))
  = List.filter (fun s => (scoreOf s =? v)%Z) missing.
Proof.
  intros scoreOf. unfold rankSkills.
  rewrite (fold_left_push_map
             (fun s => {| skill := s; score := skillScore jobDescription s |})).
  simpl app. rewrite sort_ranked, map_map. simpl. rewrite map_id.
  induction missing as [|x l IH]; [reflexivity|].
  simpl sort. rewrite (insertSorted_same_score scoreOf). simpl. now rewrite IH.
Qed.

(** X15.  The roadmap is never empty and has at most five lines: either the
    generic line alone, or some of the five bucket lines in their fixed
    order.  With nothing missing it is the generic line. *)
Theorem roadmap_shape (a : AnalysisResult) :
  learningRoadmap (Some a) <> []
  /\ length (learningRoadmap (Some a)) <= 5
  /\ (learningRoadmap (Some a) = [roadmapFallback]
      \/ sublist (learningRoadmap (Some a)) roadmapLines)
  /\ (missingSkills a = [] -> learningRoadmap (Some a) = [roadmapFallback]).
Proof.
  assert (Hempty : missingSkills a = [] -> learningRoadmap (Some a) = [roadmapFallback]).
  { intros E. unfold learningRoadmap. now rewrite E. }
  unfold learningRoadmap in *. cbv zeta in *.
  set (f1 := someIncludes _ ("html" :: _)) in *.
  set (f2 := someIncludes _ ("react" :: _)) in *.
  set (f3 := someIncludes _ ("node" :: _)) in *.
  set (f4 := someIncludes _ ("git" :: _)) in *.
  set (f5 := existsb _ (missingSkills a)) in *.
  clearbody f1 f2 f3 f4 f5.
  split; [|split; [|split; [|exact Hempty]]]; clear Hempty;
    destruct f1, f2, f3, f4, f5; simpl;
    try discriminate; try lia;
    first [ left; reflexivity
          | right; unfold roadmapLines;
            repeat first [ apply sublist_nil | apply sublist_skip | apply sublist_cons ] ].
Qed.

End SuggestionProperties.

(** ** Capitals *)

Section CaseProperties.

Import JSString Page.

Lemma whitespace_toLowerChar (c : ascii) :
  isWhiteSpace (toLowerChar c) = isWhiteSpace c.
Proof.
  destruct c as [b0 b1 b2 b3 b4 b5 b6 b7].
  destruct b0, b1, b2, b3, b4, b5, b6, b7; reflexivity.
Qed.

Lemma comma_toLowerChar (c : ascii) :
  Ascii.eqb (toLowerChar c) ","%char = Ascii.eqb c ","%char.
Proof.
  destruct c as [b0 b1 b2 b3 b4 b5 b6 b7].
  destruct b0, b1, b2, b3, b4, b5, b6, b7; reflexivity.
Qed.

Lemma trimStart_toLowerCase (s : string) :
  trimStart (toLowerCase s) = toLowerCase (trimStart s).
Proof.
  induction s as [|c s IH]; simpl; [reflexivity|].
  rewrite whitespace_toLowerChar. destruct (isWhiteSpace c); [exact IH | reflexivity].
Qed.

Lemma trimEnd_toLowerCase (s : string) :
  trimEnd (toLowerCase s) = toLowerCase (trimEnd s).
Proof.
  induction s as [|c s IH]; simpl; [reflexivity|].
  rewrite IH, whitespace_toLowerChar.
  destruct (trimEnd s); simpl; [destruct (isWhiteSpace c)|]; reflexivity.
Qed.

Lemma normalize_toLowerCase (s : string) :
  normalize (toLowerCase s) = normalize s.
Proof.
  rewrite !normalize_unfold. unfold trim.
  now rewrite trimStart_toLowerCase, trimEnd_toLowerCase, toLowerCase_idempotent.
Qed.

Lemma split_toLowerCase (s : string) :
  split "," (toLowerCase s) = List.map toLowerCase (split "," s).
Proof.
  induction s as [|c s IH]; simpl; [reflexivity|].
  rewrite comma_toLowerChar, IH.
  destruct (Ascii.eqb c ","); [reflexivity|].
  destruct (split "," s); reflexivity.
Qed.

(** X2.  The analysis does not depend on capitals: neither on those of the
    user's text, nor, for the match and the category of one skill, on
    those of the skill. *)
Theorem analysis_ignores_case (userSkills : string) (required : list string) :
  analyze (toLowerCase userSkills) required = analyze userSkills required
  /\ (forall userSkillsArray skill,
        isMatched userSkillsArray (toLowerCase skill) = isMatched userSkillsArray skill)
  /\ (forall skill, isTechnical (toLowerCase skill) = isTechnical skill).
Proof.
  split; [|split].
  - rewrite !analyze_fields, split_toLowerCase, map_map.
    rewrite (map_ext _ normalize normalize_toLowerCase). reflexivity.
  - intros arr skill. unfold isMatched. now rewrite normalize_toLowerCase.
  - intros skill. unfold isTechnical. now rewrite toLowerCase_idempotent.
Qed.

(** X8.  The userSkills that the page posts are the segments of the text,
    trimmed, the empty ones left out: what the gateway's own extraction
    would make of the text.  None is empty, untrimmed or holds a comma. *)
Theorem posted_userSkills_clean (st : State) :
  Gateway.userSkills (requestBody st)
  = Gateway.SkillArray (Gateway.extractSkills (userSkills st))
  /\ Gateway.jobDescription (requestBody st) = jobDescription st
  /\ Forall (fun s => s <> EmptyString /\ hasChar "," s = false /\ trim s = s)
            (Gateway.extractSkills (userSkills st)).
Proof.
  split; [reflexivity|]. split; [reflexivity|]. apply extractSkills_entries.
Qed.

End CaseProperties.
